(** * sso: the authentication service (package [auth]) and the token issuer
      (package [jwt])

    A shallow embedding of [internal/services/auth/auth.go] and of
    [internal/lib/jwt] together with the facts about them that the
    specification states.

    Go values are modelled as follows.
    - [int], [int64] and [time.Duration] are [Z]; no arithmetic is done on
      them by the service itself.
    - [string] is [string], [[]byte] is [list byte], and the conversion
      [[]byte(s)] is [list_byte_of_string].
    - a Go result [(T, error)] is a pair [T * option error], [None] being
      the nil error.  Both components are kept, because the service must
      discard the value a store returns next to an error.
    - everything outside the service (the database behind the stores, the
      entropy used by bcrypt, the clock) is one abstract [World] that is
      threaded through every call, next to a [trace] of the calls and log
      records the service makes. *)

From Stdlib Require Import ZArith String List Lia.
From Stdlib Require Import Init.Byte Strings.Byte.
From stdpp Require Import base option list strings gmap.
From stdpp Require Import pretty.

Import ListNotations.
Local Open Scope Z_scope.
Local Open Scope string_scope.

#[global] Instance byte_eq_decision : EqDecision byte := Byte.byte_eq_dec.

(** ** Errors *)

(** The package-level error variables created with [errors.New] that
    [auth.go] names.  Such a variable is a pointer; two of them are equal
    only when they are the same variable, whatever their text. *)
Inductive var : Type :=
| auth_ErrInvalidCredentials
| auth_ErrInvalidAppID
| auth_ErrUserExists
| auth_ErrUserNotFound
| storage_ErrUserNotFound
| storage_ErrUserExists.

#[global] Instance var_eq_dec : EqDecision var.
Proof. solve_decision. Defined.

(** An error value: one of the variables above, any other error without an
    [Unwrap] method (a driver, bcrypt or signing error), or the value built
    by [fmt.Errorf("%s: %w", prefix, err)]. *)
Inductive error : Type :=
| errorVar (v : var)
| errorOther (text : string)
| wrapError (prefix : string) (err : error).

#[global] Instance error_eq_dec : EqDecision error.
Proof. solve_decision. Defined.

Module errors.

(** [errors.Unwrap] *)
Definition Unwrap (err : error) : option error :=
  match err with
  | wrapError _ e => Some e
  | _ => None
  end.

(** [errors.Is(err, target)] for a [target] that is a package-level
    variable: walk the [Unwrap] chain, comparing by identity. *)
Fixpoint Is (err : error) (target : var) : bool :=
  match err with
  | errorVar v => bool_decide (v = target)
  | errorOther _ => false
  | wrapError _ e => Is e target
  end.

End errors.

Module fmt.

(** [fmt.Errorf("%s: %w", op, err)] *)
Definition Errorf (op : string) (err : error) : error := wrapError op err.

End fmt.

Module storage.
Definition ErrUserNotFound : var := storage_ErrUserNotFound.
Definition ErrUserExists : var := storage_ErrUserExists.
End storage.

(** ** Domain models *)

(** Package [models] is used by [auth.go] and [jwt] through these fields
    only. *)
Module models.

Record User : Type := mkUser {
  User_ID : Z;
  User_Email : string;
  User_PassHash : list byte
}.

Record App : Type := mkApp {
  App_ID : Z;
  App_Secret : string
}.

End models.

(** ** The third-party token library, as far as [jwt.NewToken] uses it *)

Module jwtlib.

Inductive SigningMethod : Type :=
| SigningMethodHS256 | SigningMethodHS384 | SigningMethodHS512
| SigningMethodRS256 | SigningMethodES256 | SigningMethodNone.

Definition Alg (m : SigningMethod) : string :=
  match m with
  | SigningMethodHS256 => "HS256"
  | SigningMethodHS384 => "HS384"
  | SigningMethodHS512 => "HS512"
  | SigningMethodRS256 => "RS256"
  | SigningMethodES256 => "ES256"
  | SigningMethodNone => "none"
  end.

(** The HMAC family signs and verifies with one shared key. *)
Definition symmetric (m : SigningMethod) : bool :=
  match m with
  | SigningMethodHS256 | SigningMethodHS384 | SigningMethodHS512 => true
  | _ => false
  end.

(** A value stored in a claims map ([interface{}]). *)
Inductive any : Type :=
| any_int64 (n : Z)
| any_int (n : Z)
| any_string (s : string).

Record Token : Type := mkToken {
  Method : SigningMethod;
  Header : gmap string any;
  Claims : gmap string any
}.

(** [jwt.New(method)]: a token with the standard header and an empty
    [MapClaims]. *)
Definition New (m : SigningMethod) : Token :=
  {| Method := m;
     Header := <["alg" := any_string (Alg m)]> (<["typ" := any_string "JWT"]> ∅);
     Claims := ∅ |}.

(** [claims[k] = v] *)
Definition set_claim (k : string) (v : any) (t : Token) : Token :=
  {| Method := Method t; Header := Header t; Claims := <[k := v]> (Claims t) |}.

End jwtlib.

(** ** Logging *)

Module slog.

Inductive Level : Type := LevelDebug | LevelInfo | LevelWarn | LevelError.

(** An attribute of a record.  [ErrText k e] stands for
    [slog.String(k, e.Error())]. *)
Inductive Attr : Type :=
| String_ (key value : string)
| Int64 (key : string) (value : Z)
| Bool (key : string) (value : bool)
| ErrText (key : string) (e : error).

(** A logger is known by the attributes attached to it with [With]. *)
Record Logger : Type := mkLogger { attrs : list Attr }.

Definition With (l : Logger) (more : list Attr) : Logger :=
  {| attrs := attrs l ++ more |}.

End slog.

(** ** The world outside the service *)

Definition Duration : Type := Z.

(** What the service calls and does not define: the clock, bcrypt and the
    signing primitive of the token library. *)
Class Env : Type := {
  World : Type;
  Context : Type;
  Time : Type;
  time_Now : World -> Time * World;
  time_Add : Time -> Duration -> Time;
  time_Unix : Time -> Z;
  bcrypt_GenerateFromPassword :
    list byte -> Z -> World -> (list byte * option error) * World;
  bcrypt_CompareHashAndPassword : list byte -> list byte -> option error;
  jwt_SignedString : jwtlib.Token -> list byte -> string * option error
}.

(** Everything the service does that can be seen from outside, in order. *)
Inductive event : Type :=
| EvLog (level : slog.Level) (msg : string) (attrs : list slog.Attr)
| EvUser (email : string)
| EvIsAdmin (userID : Z)
| EvIsUserExists (userID : Z)
| EvSaveUser (email : string) (passHash : list byte)
| EvApp (appID : Z)
| EvGenerateFromPassword (password : list byte) (cost : Z)
| EvCompareHashAndPassword (hash password : list byte)
| EvNow
| EvSignedString (t : jwtlib.Token) (key : list byte).

Section Monad.
Context `{Env}.

Record State : Type := mkState { world : World; trace : list event }.

Definition M (A : Type) : Type := State -> A * State.

Definition ret {A} (x : A) : M A := fun s => (x, s).

Definition bind {A B} (m : M A) (k : A -> M B) : M B :=
  fun s => let (x, s') := m s in k x s'.

(** Record an event. *)
Definition emit (e : event) : M unit :=
  fun s => (tt, {| world := world s; trace := trace s ++ [e] |}).

(** Run an external call on the world. *)
Definition call {A} (f : World -> A * World) : M A :=
  fun s => let (x, w) := f (world s) in (x, {| world := w; trace := trace s |}).

End Monad.

Notation "'let*' x ':=' m 'in' k" := (bind m (fun x => k))
  (at level 10, x pattern, m at level 100, k at level 200).
Notation "m ;; k" := (bind m (fun _ => k))
  (at level 100, k at level 200, right associativity).

(** ** Library calls, as steps of the service *)

Module Logger.
Section Logger.
Context `{Env}.

Definition Log (l : slog.Logger) (level : slog.Level) (msg : string)
    (args : list slog.Attr) : M unit :=
  emit (EvLog level msg (slog.attrs l ++ args)).

Definition Info l msg args := Log l slog.LevelInfo msg args.
Definition Warn l msg args := Log l slog.LevelWarn msg args.
Definition Error l msg args := Log l slog.LevelError msg args.

End Logger.
End Logger.

Module time.
Section time.
Context `{Env}.

Definition Now : M Time := emit EvNow ;; call time_Now.

End time.
End time.

Module bcrypt.
Section bcrypt.
Context `{Env}.

Definition DefaultCost : Z := 10.

Definition GenerateFromPassword (password : list byte) (cost : Z)
    : M (list byte * option error) :=
  emit (EvGenerateFromPassword password cost) ;;
  call (bcrypt_GenerateFromPassword password cost).

Definition CompareHashAndPassword (hashedPassword password : list byte)
    : M (option error) :=
  emit (EvCompareHashAndPassword hashedPassword password) ;;
  ret (bcrypt_CompareHashAndPassword hashedPassword password).

End bcrypt.
End bcrypt.

(** ** Package [jwt] of the repository *)

Module jwt.
Section jwt.
Context `{Env}.

Definition SignedString (t : jwtlib.Token) (key : list byte)
    : M (string * option error) :=
  emit (EvSignedString t key) ;;
  ret (jwt_SignedString t key).

(** [NewToken]: fill the claims, then sign with the application's secret. *)
Definition NewToken (user : models.User) (app : models.App) (duration : Duration)
    : M (string * option error) :=
  let token := jwtlib.New jwtlib.SigningMethodHS256 in
  let token := jwtlib.set_claim "uid" (jwtlib.any_int64 (models.User_ID user)) token in
  let token := jwtlib.set_claim "email" (jwtlib.any_string (models.User_Email user)) token in
  let* now := time.Now in
  let token :=
    jwtlib.set_claim "exp" (jwtlib.any_int64 (time_Unix (time_Add now duration))) token in
  let token := jwtlib.set_claim "app_id" (jwtlib.any_int (models.App_ID app)) token in
  let* (tokenString, err) :=
    SignedString token (list_byte_of_string (models.App_Secret app)) in
  match err with
  | Some err => ret ("", Some err)
  | None => ret (tokenString, None)
  end.

End jwt.
End jwt.

(** ** Package [auth] *)

Module auth.

Definition ErrInvalidCredentials : error := errorVar auth_ErrInvalidCredentials.
Definition ErrInvalidAppID : error := errorVar auth_ErrInvalidAppID.
Definition ErrUserExists : error := errorVar auth_ErrUserExists.
Definition ErrUserNotFound : error := errorVar auth_ErrUserNotFound.

Section auth.
Context `{Env}.

(** The three storage interfaces.  A method takes the world and returns
    its Go result next to the world it leaves. *)
Record UserSaver : Type := {
  SaveUser : Context -> string -> list byte -> World -> (Z * option error) * World
}.

Record UserProvider : Type := {
  UserProvider_User : Context -> string -> World -> (models.User * option error) * World;
  UserProvider_IsAdmin : Context -> Z -> World -> (bool * option error) * World;
  UserProvider_IsUserExists : Context -> Z -> World -> (bool * option error) * World
}.

Record AppProvider : Type := {
  AppProvider_App : Context -> Z -> World -> (models.App * option error) * World
}.

Record AuthService : Type := New {
  log : slog.Logger;
  usrSaver : UserSaver;
  usrProvider : UserProvider;
  appProvider : AppProvider;
  tokenTTL : Duration
}.

(** Calls through the interfaces, recorded in the trace. *)
Definition call_SaveUser (s : UserSaver) ctx email passHash :=
  emit (EvSaveUser email passHash) ;; call (SaveUser s ctx email passHash).
Definition call_User (p : UserProvider) ctx email :=
  emit (EvUser email) ;; call (UserProvider_User p ctx email).
Definition call_IsAdmin (p : UserProvider) ctx userID :=
  emit (EvIsAdmin userID) ;; call (UserProvider_IsAdmin p ctx userID).
Definition call_IsUserExists (p : UserProvider) ctx userID :=
  emit (EvIsUserExists userID) ;; call (UserProvider_IsUserExists p ctx userID).
Definition call_App (p : AppProvider) ctx appID :=
  emit (EvApp appID) ;; call (AppProvider_App p ctx appID).

Definition op_Login : string := "Auth.Login".
Definition op_RegisterNewUser : string := "auth.RegisterNewUser".
Definition op_IsAdmin : string := "Auth.IsAdmin".
Definition op_IsUserExists : string := "Auth.IsUserExists".

Definition Login (a : AuthService) (ctx : Context) (email password : string)
    (appID : Z) : M (string * option error) :=
  let op := op_Login in
  let log' := slog.With (log a)
                [slog.String_ "op" op; slog.String_ "email" email] in
  Logger.Info log' "attempting to login user" [] ;;
  let* (user, err) := call_User (usrProvider a) ctx email in
  match err with
  | Some err =>
      if errors.Is err storage.ErrUserNotFound then
        Logger.Warn (log a) "user not found" [slog.ErrText "error" err] ;;
        ret ("", Some (fmt.Errorf op ErrInvalidCredentials))
      else
        Logger.Error (log a) "failed to get user" [slog.ErrText "error" err] ;;
        ret ("", Some (fmt.Errorf op err))
  | None =>
      let* err := bcrypt.CompareHashAndPassword (models.User_PassHash user)
                    (list_byte_of_string password) in
      match err with
      | Some err =>
          Logger.Info (log a) "invalid credentials" [slog.ErrText "error" err] ;;
          ret ("", Some (fmt.Errorf op ErrInvalidCredentials))
      | None =>
          let* (app, err) := call_App (appProvider a) ctx appID in
          match err with
          | Some err => ret ("", Some (fmt.Errorf op err))
          | None =>
              Logger.Info log' "user logged in successfully" [] ;;
              let* (token, err) := jwt.NewToken user app (tokenTTL a) in
              match err with
              | Some err =>
                  Logger.Error (log a) "failed to create token"
                    [slog.ErrText "error" err] ;;
                  ret ("", Some (fmt.Errorf op err))
              | None => ret (token, None)
              end
          end
      end
  end.

Definition RegisterNewUser (a : AuthService) (ctx : Context) (email pass : string)
    : M (Z * option error) :=
  let op := op_RegisterNewUser in
  let log' := slog.With (log a)
                [slog.String_ "op" op; slog.String_ "email" email] in
  Logger.Info log' "registering new user" [] ;;
  let* (passHash, err) :=
    bcrypt.GenerateFromPassword (list_byte_of_string pass) bcrypt.DefaultCost in
  match err with
  | Some err =>
      Logger.Error log' "failed ot generate password hash" [slog.ErrText "error" err] ;;
      ret (0, Some (fmt.Errorf op err))
  | None =>
      let* (id, err) := call_SaveUser (usrSaver a) ctx email passHash in
      match err with
      | Some err =>
          if errors.Is err storage.ErrUserExists then
            Logger.Warn (log a) "user not found" [slog.ErrText "error" err] ;;
            ret (0, Some (fmt.Errorf op ErrUserExists))
          else
            Logger.Error log' "failed ot save user" [slog.ErrText "error" err] ;;
            ret (0, Some (fmt.Errorf op err))
      | None =>
          Logger.Info log' "user registered" [] ;;
          ret (id, None)
      end
  end.

Definition IsAdmin (a : AuthService) (ctx : Context) (userID : Z)
    : M (bool * option error) :=
  let op := op_IsAdmin in
  let log' := slog.With (log a)
                [slog.String_ "op" op; slog.Int64 "user_id" userID] in
  Logger.Info log' "checking if user is admin" [] ;;
  let* (isAdmin, err) := call_IsAdmin (usrProvider a) ctx userID in
  match err with
  | Some err =>
      if errors.Is err storage.ErrUserNotFound then
        Logger.Warn log' "user not found" [slog.ErrText "error" err] ;;
        ret (false, Some (fmt.Errorf op ErrInvalidAppID))
      else
        ret (false, Some (fmt.Errorf op err))
  | None =>
      Logger.Info log' "checked if user is admin" [slog.Bool "is_admin" isAdmin] ;;
      ret (isAdmin, None)
  end.

Definition IsUserExists (a : AuthService) (ctx : Context) (userID : Z)
    : M (bool * option error) :=
  let op := op_IsUserExists in
  let log' := slog.With (log a)
                [slog.String_ "op" op; slog.Int64 "user_id" userID] in
  Logger.Info log' "checking if user exists" [] ;;
  let* (isUserExists, err) := call_IsUserExists (usrProvider a) ctx userID in
  match err with
  | Some err =>
      if errors.Is err storage.ErrUserNotFound then
        Logger.Warn log' "user not found" [slog.ErrText "error" err] ;;
        ret (false, Some (fmt.Errorf op ErrInvalidAppID))
      else
        ret (false, Some (fmt.Errorf op err))
  | None =>
      Logger.Info log' "checked if user exists" [slog.Bool "exists" isUserExists] ;;
      ret (isUserExists, None)
  end.

End auth.
End auth.

(** ** An in-memory world, to run the service on concrete inputs *)

(** Modelled from the spec: the store behind the two storage contracts
    (package [sqlite]) is not among the sources.  This one keeps users and
    applications in lists, assigns ids in order and refuses a second user
    with the same email, as sections 4.4 and 5 of the specification ask of
    any store.  The hashing and signing functions are stand-ins that
    compute; they say nothing about bcrypt or HMAC. *)
Module mem.

Record Row : Type := mkRow {
  row_user : models.User;
  row_admin : bool
}.

Record DB : Type := mkDB {
  users : list Row;
  apps : list models.App;
  clock : Z
}.

Definition zeroUser : models.User := models.mkUser 0 "" [].
Definition zeroApp : models.App := models.mkApp 0 "".

Definition by_email (email : string) (r : Row) : bool :=
  bool_decide (models.User_Email (row_user r) = email).
Definition by_id (id : Z) (r : Row) : bool :=
  bool_decide (models.User_ID (row_user r) = id).

Definition toy_hash (password : list byte) : list byte := x24 :: password.

Definition toy_generate (password : list byte) (cost : Z) (db : DB)
    : (list byte * option error) * DB :=
  if bool_decide (72 < Z.of_nat (length password))
  then (([], Some (errorOther "password too long")), db)
  else ((toy_hash password, None), db).

Definition toy_compare (hash password : list byte) : option error :=
  if bool_decide (hash = toy_hash password) then None
  else Some (errorOther "hash and password differ").

Definition toy_sign (t : jwtlib.Token) (key : list byte) : string * option error :=
  match key with
  | [] => ("", Some (errorOther "key is empty"))
  | _ => (jwtlib.Alg (jwtlib.Method t) ++ "." ++ string_of_list_byte key, None)
  end.

#[export] Instance env : Env := {|
  World := DB;
  Context := unit;
  Time := Z;
  time_Now := fun db => (clock db, db);
  time_Add := fun t d => t + d;
  time_Unix := fun t => t / 1000000000;
  bcrypt_GenerateFromPassword := toy_generate;
  bcrypt_CompareHashAndPassword := toy_compare;
  jwt_SignedString := toy_sign
|}.

Definition wrap (op : string) (v : var) : error := fmt.Errorf op (errorVar v).

Definition saver : @auth.UserSaver env :=
  @auth.Build_UserSaver env (fun _ email passHash (db : DB) =>
    match find (by_email email) (users db) with
    | Some _ => ((0, Some (wrap "mem.SaveUser" storage.ErrUserExists)), db)
    | None =>
        let id := Z.of_nat (length (users db)) + 1 in
        ((id, None),
         {| users := users db ++ [mkRow (models.mkUser id email passHash) false];
            apps := apps db; clock := clock db |})
    end).

Definition provider : @auth.UserProvider env :=
  @auth.Build_UserProvider env
  (fun _ email (db : DB) =>
    match find (by_email email) (users db) with
    | Some r => ((row_user r, None), db)
    | None => ((zeroUser, Some (wrap "mem.User" storage.ErrUserNotFound)), db)
    end)
  (fun _ id (db : DB) =>
    match find (by_id id) (users db) with
    | Some r => ((row_admin r, None), db)
    | None => ((false, Some (wrap "mem.IsAdmin" storage.ErrUserNotFound)), db)
    end)
  (fun _ id (db : DB) =>
    match find (by_id id) (users db) with
    | Some r => ((true, None), db)
    | None =>
        ((false, Some (wrap "mem.IsUserExists" storage.ErrUserNotFound)), db)
    end).

Definition app_provider : @auth.AppProvider env :=
  @auth.Build_AppProvider env (fun _ id (db : DB) =>
    match find (fun a => bool_decide (models.App_ID a = id)) (apps db) with
    | Some a => ((a, None), db)
    | None => ((zeroApp, Some (fmt.Errorf "mem.App" (errorOther "app not found"))), db)
    end).

Definition service : @auth.AuthService env :=
  @auth.New env (slog.mkLogger []) saver provider app_provider 3600000000000.

(** One registered user, ["a@x.com"] with password ["pw1"], and one
    application, 42. *)
Definition db1 : DB := {|
  users := [mkRow (models.mkUser 1 "a@x.com" (toy_hash (list_byte_of_string "pw1"))) false];
  apps := [models.mkApp 42 "secret-42"];
  clock := 1700000000123456789
|}.

Definition start (db : DB) : @State env := @mkState env db [].

(** An email is taken when some row has it. *)
Definition taken (db : DB) (email : string) : Prop :=
  exists r, find (by_email email) (users db) = Some r.

End mem.

(** ** What a run of [Login] meets *)

Section Conditions.
Context `{Env}.

(** The user store reports that no user has this email. *)
Definition unknown_email (a : auth.AuthService) (ctx : Context) (email : string)
    (w : World) : bool :=
  match snd (fst (auth.UserProvider_User (auth.usrProvider a) ctx email w)) with
  | Some err => errors.Is err storage.ErrUserNotFound
  | None => false
  end.

(** The user is found and the password does not match the stored hash. *)
Definition wrong_password (a : auth.AuthService) (ctx : Context)
    (email password : string) (w : World) : bool :=
  match fst (auth.UserProvider_User (auth.usrProvider a) ctx email w) with
  | (user, None) =>
      match bcrypt_CompareHashAndPassword (models.User_PassHash user)
              (list_byte_of_string password) with
      | Some _ => true
      | None => false
      end
  | (_, Some _) => false
  end.

Definition invalid_credentials a ctx email password w : bool :=
  unknown_email a ctx email w || wrong_password a ctx email password w.

(** The user is found and the password matches. *)
Definition valid_credentials (a : auth.AuthService) (ctx : Context)
    (email password : string) (w : World) : bool :=
  match fst (auth.UserProvider_User (auth.usrProvider a) ctx email w) with
  | (user, None) =>
      match bcrypt_CompareHashAndPassword (models.User_PassHash user)
              (list_byte_of_string password) with
      | Some _ => false
      | None => true
      end
  | (_, Some _) => false
  end.

(** The world the user lookup leaves behind. *)
Definition after_User (a : auth.AuthService) (ctx : Context) (email : string)
    (w : World) : World :=
  snd (auth.UserProvider_User (auth.usrProvider a) ctx email w).

(** The events of a run: what it appended to the trace it started with. *)
Definition appended (s s' : State) (evs : list event) : Prop :=
  trace s' = (trace s ++ evs)%list.

Definition is_EvApp (e : event) : bool :=
  match e with EvApp _ => true | _ => false end.
Definition is_EvSaveUser (e : event) : bool :=
  match e with EvSaveUser _ _ => true | _ => false end.
Definition is_EvGenerate (e : event) : bool :=
  match e with EvGenerateFromPassword _ _ => true | _ => false end.

(** A store answer that reports "user not found". *)
Definition reports_not_found {A} (r : A * option error) : bool :=
  match snd r with
  | Some err => errors.Is err storage.ErrUserNotFound
  | None => false
  end.

(** The token [jwt.NewToken] has built when it calls the signer, [exp]
    being the expiry it has computed. *)
Definition built_token (user : models.User) (app : models.App) (exp : Z)
    : jwtlib.Token :=
  jwtlib.set_claim "app_id" (jwtlib.any_int (models.App_ID app))
    (jwtlib.set_claim "exp" (jwtlib.any_int64 exp)
       (jwtlib.set_claim "email" (jwtlib.any_string (models.User_Email user))
          (jwtlib.set_claim "uid" (jwtlib.any_int64 (models.User_ID user))
             (jwtlib.New jwtlib.SigningMethodHS256)))).

(** The expiry of a token issued for [duration] in world [w]. *)
Definition expiry (w : World) (duration : Duration) : Z :=
  time_Unix (time_Add (fst (time_Now w)) duration).

End Conditions.

(** ** The ways through the four operations *)

Section Paths.
Context `{Env}.
Variable a : auth.AuthService.
Variable ctx : Context.

Section Login.
Variables email password : string.
Variable appID : Z.

(** The records and calls of a run of [Login]. *)
Definition ev_attempt : event :=
  EvLog slog.LevelInfo "attempting to login user"
    (slog.attrs (auth.log a) ++
     [slog.String_ "op" auth.op_Login; slog.String_ "email" email]).

Definition ev_err (level : slog.Level) (msg : string) (err : error) : event :=
  EvLog level msg (slog.attrs (auth.log a) ++ [slog.ErrText "error" err]).

Definition ev_compare (user : models.User) : event :=
  EvCompareHashAndPassword (models.User_PassHash user) (list_byte_of_string password).

(** The events of a run that reaches the signer. *)
Definition signing_events (user : models.User) (app : models.App) (w2 : World)
    : list event :=
  [ev_attempt; EvUser email; ev_compare user; EvApp appID;
   EvLog slog.LevelInfo "user logged in successfully"
     (slog.attrs (auth.log a) ++
      [slog.String_ "op" auth.op_Login; slog.String_ "email" email]);
   EvNow;
   EvSignedString (built_token user app (expiry w2 (auth.tokenTTL a)))
     (list_byte_of_string (models.App_Secret app))].

(** The six ways through [Login]: what the stores and libraries
    answered, what [Login] returns and the state it leaves. *)
Inductive Login_path (s : State) : string * option error -> State -> Prop :=
| path_unknown_email user err w1 :
    auth.UserProvider_User (auth.usrProvider a) ctx email (world s)
      = ((user, Some err), w1) ->
    errors.Is err storage.ErrUserNotFound = true ->
    Login_path s ("", Some (fmt.Errorf auth.op_Login auth.ErrInvalidCredentials))
      {| world := w1;
         trace := trace s ++
           [ev_attempt; EvUser email; ev_err slog.LevelWarn "user not found" err] |}
| path_user_error user err w1 :
    auth.UserProvider_User (auth.usrProvider a) ctx email (world s)
      = ((user, Some err), w1) ->
    errors.Is err storage.ErrUserNotFound = false ->
    Login_path s ("", Some (fmt.Errorf auth.op_Login err))
      {| world := w1;
         trace := trace s ++
           [ev_attempt; EvUser email;
            ev_err slog.LevelError "failed to get user" err] |}
| path_wrong_password user w1 err :
    auth.UserProvider_User (auth.usrProvider a) ctx email (world s)
      = ((user, None), w1) ->
    bcrypt_CompareHashAndPassword (models.User_PassHash user)
      (list_byte_of_string password) = Some err ->
    Login_path s ("", Some (fmt.Errorf auth.op_Login auth.ErrInvalidCredentials))
      {| world := w1;
         trace := trace s ++
           [ev_attempt; EvUser email; ev_compare user;
            ev_err slog.LevelInfo "invalid credentials" err] |}
| path_app_error user w1 app err w2 :
    auth.UserProvider_User (auth.usrProvider a) ctx email (world s)
      = ((user, None), w1) ->
    bcrypt_CompareHashAndPassword (models.User_PassHash user)
      (list_byte_of_string password) = None ->
    auth.AppProvider_App (auth.appProvider a) ctx appID w1 = ((app, Some err), w2) ->
    Login_path s ("", Some (fmt.Errorf auth.op_Login err))
      {| world := w2;
         trace := trace s ++ [ev_attempt; EvUser email; ev_compare user; EvApp appID] |}
| path_sign_error user w1 app w2 str err :
    auth.UserProvider_User (auth.usrProvider a) ctx email (world s)
      = ((user, None), w1) ->
    bcrypt_CompareHashAndPassword (models.User_PassHash user)
      (list_byte_of_string password) = None ->
    auth.AppProvider_App (auth.appProvider a) ctx appID w1 = ((app, None), w2) ->
    jwt_SignedString (built_token user app (expiry w2 (auth.tokenTTL a)))
      (list_byte_of_string (models.App_Secret app)) = (str, Some err) ->
    Login_path s ("", Some (fmt.Errorf auth.op_Login err))
      {| world := snd (time_Now w2);
         trace := trace s ++ signing_events user app w2 ++
           [ev_err slog.LevelError "failed to create token" err] |}
| path_success user w1 app w2 str :
    auth.UserProvider_User (auth.usrProvider a) ctx email (world s)
      = ((user, None), w1) ->
    bcrypt_CompareHashAndPassword (models.User_PassHash user)
      (list_byte_of_string password) = None ->
    auth.AppProvider_App (auth.appProvider a) ctx appID w1 = ((app, None), w2) ->
    jwt_SignedString (built_token user app (expiry w2 (auth.tokenTTL a)))
      (list_byte_of_string (models.App_Secret app)) = (str, None) ->
    Login_path s (str, None)
      {| world := snd (time_Now w2);
         trace := trace s ++ signing_events user app w2 |}.

(** The events of a run that rejects the credentials. *)
Definition rejection_events (w : World) : list event :=
  match fst (auth.UserProvider_User (auth.usrProvider a) ctx email w) with
  | (_, Some err) =>
      [ev_attempt; EvUser email; ev_err slog.LevelWarn "user not found" err]
  | (user, None) =>
      match bcrypt_CompareHashAndPassword (models.User_PassHash user)
              (list_byte_of_string password) with
      | Some err =>
          [ev_attempt; EvUser email; ev_compare user;
           ev_err slog.LevelInfo "invalid credentials" err]
      | None => []
      end
  end.

(** The errors the stores and the signer hand to a run of [Login] that
    starts in world [w]; a mismatch reported by bcrypt is not among
    them, [Login] never passes it on. *)
Definition Login_received (w : World) : list error :=
  match auth.UserProvider_User (auth.usrProvider a) ctx email w with
  | ((_, Some err), _) => [err]
  | ((user, None), w1) =>
      match bcrypt_CompareHashAndPassword (models.User_PassHash user)
              (list_byte_of_string password) with
      | Some _ => []
      | None =>
          match auth.AppProvider_App (auth.appProvider a) ctx appID w1 with
          | ((_, Some err), _) => [err]
          | ((app, None), w2) =>
              match snd (jwt_SignedString
                           (built_token user app (expiry w2 (auth.tokenTTL a)))
                           (list_byte_of_string (models.App_Secret app))) with
              | Some err => [err]
              | None => []
              end
          end
      end
  end.

End Login.

Section RegisterNewUser.
Variables email pass : string.

Definition reg_attrs : list slog.Attr :=
  slog.attrs (auth.log a) ++
  [slog.String_ "op" auth.op_RegisterNewUser; slog.String_ "email" email].

Definition ev_hash : event :=
  EvGenerateFromPassword (list_byte_of_string pass) bcrypt.DefaultCost.

(** The four ways through [RegisterNewUser]. *)
Inductive Register_path (s : State) : Z * option error -> State -> Prop :=
| path_hash_error passHash err w1 :
    bcrypt_GenerateFromPassword (list_byte_of_string pass) bcrypt.DefaultCost
      (world s) = ((passHash, Some err), w1) ->
    Register_path s (0, Some (fmt.Errorf auth.op_RegisterNewUser err))
      {| world := w1;
         trace := trace s ++
           [EvLog slog.LevelInfo "registering new user" reg_attrs; ev_hash;
            EvLog slog.LevelError "failed ot generate password hash"
              (reg_attrs ++ [slog.ErrText "error" err])] |}
| path_user_exists passHash w1 id err w2 :
    bcrypt_GenerateFromPassword (list_byte_of_string pass) bcrypt.DefaultCost
      (world s) = ((passHash, None), w1) ->
    auth.SaveUser (auth.usrSaver a) ctx email passHash w1 = ((id, Some err), w2) ->
    errors.Is err storage.ErrUserExists = true ->
    Register_path s (0, Some (fmt.Errorf auth.op_RegisterNewUser auth.ErrUserExists))
      {| world := w2;
         trace := trace s ++
           [EvLog slog.LevelInfo "registering new user" reg_attrs; ev_hash;
            EvSaveUser email passHash;
            EvLog slog.LevelWarn "user not found"
              (slog.attrs (auth.log a) ++ [slog.ErrText "error" err])] |}
| path_save_error passHash w1 id err w2 :
    bcrypt_GenerateFromPassword (list_byte_of_string pass) bcrypt.DefaultCost
      (world s) = ((passHash, None), w1) ->
    auth.SaveUser (auth.usrSaver a) ctx email passHash w1 = ((id, Some err), w2) ->
    errors.Is err storage.ErrUserExists = false ->
    Register_path s (0, Some (fmt.Errorf auth.op_RegisterNewUser err))
      {| world := w2;
         trace := trace s ++
           [EvLog slog.LevelInfo "registering new user" reg_attrs; ev_hash;
            EvSaveUser email passHash;
            EvLog slog.LevelError "failed ot save user"
              (reg_attrs ++ [slog.ErrText "error" err])] |}
| path_registered passHash w1 id w2 :
    bcrypt_GenerateFromPassword (list_byte_of_string pass) bcrypt.DefaultCost
      (world s) = ((passHash, None), w1) ->
    auth.SaveUser (auth.usrSaver a) ctx email passHash w1 = ((id, None), w2) ->
    Register_path s (id, None)
      {| world := w2;
         trace := trace s ++
           [EvLog slog.LevelInfo "registering new user" reg_attrs; ev_hash;
            EvSaveUser email passHash;
            EvLog slog.LevelInfo "user registered" reg_attrs] |}.

(** The errors bcrypt and the store hand to a run of
    [RegisterNewUser]. *)
Definition Register_received (w : World) : list error :=
  match bcrypt_GenerateFromPassword (list_byte_of_string pass) bcrypt.DefaultCost w with
  | ((_, Some err), _) => [err]
  | ((passHash, None), w1) =>
      match snd (fst (auth.SaveUser (auth.usrSaver a) ctx email passHash w1)) with
      | Some err => [err]
      | None => []
      end
  end.

End RegisterNewUser.

Section Queries.
Variable userID : Z.

Definition query_attrs (op : string) : list slog.Attr :=
  slog.attrs (auth.log a) ++ [slog.String_ "op" op; slog.Int64 "user_id" userID].

(** The three ways through a query.  [IsAdmin] and [IsUserExists]
    differ in the store method [method] they call, the event [ev] it
    leaves, the operation name and the texts they log. *)
Inductive Query_path
    (method : Context -> Z -> World -> (bool * option error) * World)
    (ev : event) (op asking answered key : string) (s : State)
    : bool * option error -> State -> Prop :=
| path_not_found answer err w1 :
    method ctx userID (world s) = ((answer, Some err), w1) ->
    errors.Is err storage.ErrUserNotFound = true ->
    Query_path method ev op asking answered key s
      (false, Some (fmt.Errorf op auth.ErrInvalidAppID))
      {| world := w1;
         trace := trace s ++
           [EvLog slog.LevelInfo asking (query_attrs op); ev;
            EvLog slog.LevelWarn "user not found"
              (query_attrs op ++ [slog.ErrText "error" err])] |}
| path_query_error answer err w1 :
    method ctx userID (world s) = ((answer, Some err), w1) ->
    errors.Is err storage.ErrUserNotFound = false ->
    Query_path method ev op asking answered key s
      (false, Some (fmt.Errorf op err))
      {| world := w1;
         trace := trace s ++ [EvLog slog.LevelInfo asking (query_attrs op); ev] |}
| path_answer answer w1 :
    method ctx userID (world s) = ((answer, None), w1) ->
    Query_path method ev op asking answered key s (answer, None)
      {| world := w1;
         trace := trace s ++
           [EvLog slog.LevelInfo asking (query_attrs op); ev;
            EvLog slog.LevelInfo answered (query_attrs op ++ [slog.Bool key answer])] |}.

Definition IsAdmin_path : State -> bool * option error -> State -> Prop :=
  Query_path (auth.UserProvider_IsAdmin (auth.usrProvider a)) (EvIsAdmin userID)
    auth.op_IsAdmin "checking if user is admin" "checked if user is admin" "is_admin".

Definition IsUserExists_path : State -> bool * option error -> State -> Prop :=
  Query_path (auth.UserProvider_IsUserExists (auth.usrProvider a))
    (EvIsUserExists userID)
    auth.op_IsUserExists "checking if user exists" "checked if user exists" "exists".

(** The error the store hands to a query, if any. *)
Definition IsAdmin_received (w : World) : list error :=
  match snd (fst (auth.UserProvider_IsAdmin (auth.usrProvider a) ctx userID w)) with
  | Some err => [err]
  | None => []
  end.

Definition IsUserExists_received (w : World) : list error :=
  match snd (fst (auth.UserProvider_IsUserExists (auth.usrProvider a) ctx userID w)) with
  | Some err => [err]
  | None => []
  end.

End Queries.

End Paths.

(** No error of the list is of kind [v]. *)
Definition none_Is (v : var) (errs : list error) : bool :=
  forallb (fun e => negb (errors.Is e v)) errs.

(** ** What the specification says of tokens and of the user store *)

Section Contracts.
Context `{Env}.

(** The claims set and the signing method the specification asks of a
    token issued to [user] for [app] with expiry [exp]. *)
Definition carries (t : jwtlib.Token) (user : models.User) (app : models.App)
    (exp : Z) : Prop :=
  jwtlib.symmetric (jwtlib.Method t) = true /\
  dom (jwtlib.Claims t) = ({["uid"; "email"; "app_id"; "exp"]} : gset string) /\
  jwtlib.Claims t !! "uid" = Some (jwtlib.any_int64 (models.User_ID user)) /\
  jwtlib.Claims t !! "email" = Some (jwtlib.any_string (models.User_Email user)) /\
  jwtlib.Claims t !! "app_id" = Some (jwtlib.any_int (models.App_ID app)) /\
  jwtlib.Claims t !! "exp" = Some (jwtlib.any_int64 exp).

(** Modelled from the spec: the user store itself is not among the
    sources.  Sections 3 to 5 of the specification require it to enforce
    unique emails: once [SaveUser] has accepted an email, the email is
    [taken], it stays taken while a password is hashed, and a later
    [SaveUser] of a taken email reports "already exists". *)
Record unique_emails (sv : auth.UserSaver) (taken : World -> string -> Prop)
    : Prop := {
  accepted_is_taken : forall ctx email passHash w id w',
    auth.SaveUser sv ctx email passHash w = ((id, None), w') -> taken w' email;
  taken_is_refused : forall ctx email passHash w,
    taken w email ->
    exists err,
      snd (fst (auth.SaveUser sv ctx email passHash w)) = Some err /\
      errors.Is err storage.ErrUserExists = true;
  hashing_keeps_taken : forall password cost w email,
    taken w email -> taken (snd (bcrypt_GenerateFromPassword password cost w)) email
}.

End Contracts.

(** ** Stores that answer with the service's own error variables *)

(** The interfaces accept any [error]; these two stores answer with
    [auth.ErrUserNotFound] and [auth.ErrInvalidAppID]. *)
Module echo.

Definition provider : @auth.UserProvider mem.env :=
  @auth.Build_UserProvider mem.env
    (fun _ _ (db : mem.DB) => ((mem.zeroUser, Some auth.ErrUserNotFound), db))
    (fun _ _ (db : mem.DB) => ((false, Some auth.ErrUserNotFound), db))
    (fun _ _ (db : mem.DB) => ((false, Some auth.ErrUserNotFound), db)).

Definition app_provider : @auth.AppProvider mem.env :=
  @auth.Build_AppProvider mem.env
    (fun _ _ (db : mem.DB) => ((mem.zeroApp, Some auth.ErrInvalidAppID), db)).

(** Every user lookup answers [auth.ErrUserNotFound]. *)
Definition no_users : @auth.AuthService mem.env :=
  @auth.New mem.env (slog.mkLogger []) mem.saver provider mem.app_provider
    3600000000000.

(** Every application lookup answers [auth.ErrInvalidAppID]. *)
Definition no_apps : @auth.AuthService mem.env :=
  @auth.New mem.env (slog.mkLogger []) mem.saver mem.provider app_provider
    3600000000000.

End echo.

(** ** More about the runs of the service *)

(** What an event is: a log record or a call to one of the collaborators. *)
Inductive call_kind : Type :=
| KUser | KIsAdmin | KIsUserExists | KSaveUser | KApp
| KGenerate | KCompare | KNow | KSign.

Definition kind_of_event (e : event) : option call_kind :=
  match e with
  | EvLog _ _ _ => None
  | EvUser _ => Some KUser
  | EvIsAdmin _ => Some KIsAdmin
  | EvIsUserExists _ => Some KIsUserExists
  | EvSaveUser _ _ => Some KSaveUser
  | EvApp _ => Some KApp
  | EvGenerateFromPassword _ _ => Some KGenerate
  | EvCompareHashAndPassword _ _ => Some KCompare
  | EvNow => Some KNow
  | EvSignedString _ _ => Some KSign
  end.

(** The calls among the events, in order. *)
Definition calls (evs : list event) : list call_kind := omap kind_of_event evs.

Section MoreContracts.
Context `{Env}.

(** The events a run from [s] to [s'] has added. *)
Definition added (s s' : State) : list event := drop (length (trace s)) (trace s').

(** Modelled from the spec: bcrypt is a library.  A hash it has generated
    from a password verifies against that password. *)
Definition hashes_verify : Prop :=
  forall password cost w hash w',
    bcrypt_GenerateFromPassword password cost w = ((hash, None), w') ->
    bcrypt_CompareHashAndPassword hash password = None.

(** Modelled from the spec: the user store is not among the sources.  A
    user the store has accepted is found by email right afterwards, with
    the id the store assigned and the hash it was given. *)
Definition saved_is_found (sv : auth.UserSaver) (pv : auth.UserProvider) : Prop :=
  forall ctx email passHash w id w',
    auth.SaveUser sv ctx email passHash w = ((id, None), w') ->
    fst (auth.UserProvider_User pv ctx email w')
      = (models.mkUser id email passHash, None).


(** The hash is generated and the store reports that the user exists. *)
Definition store_reports_exists (a : auth.AuthService) (ctx : Context)
    (email pass : string) (w : World) : bool :=
  match bcrypt_GenerateFromPassword (list_byte_of_string pass) bcrypt.DefaultCost w with
  | ((_, Some _), _) => false
  | ((passHash, None), w1) =>
      match snd (fst (auth.SaveUser (auth.usrSaver a) ctx email passHash w1)) with
      | Some err => errors.Is err storage.ErrUserExists
      | None => false
      end
  end.

End MoreContracts.

(** ** Panics *)

(** The value a [panic] is raised with: a string, a string ending in the
    text of an error ([prefix + err.Error()]), or an error. *)
Inductive panic_value : Type :=
| panic_string (s : string)
| panic_string_error (prefix : string) (err : error)
| panic_error (err : error).

(** A function that returns or panics. *)
Inductive outcome (A : Type) : Type :=
| returns (x : A)
| panics (v : panic_value).
Arguments returns {A} x.
Arguments panics {A} v.

(** ** Package [config] *)

Module config.

Record GRPCConfig : Type := mkGRPCConfig {
  GRPC_Port : Z;
  GRPC_Timeout : Duration
}.

Record Config : Type := mkConfig {
  Config_Env : string;
  Config_StoragePath : string;
  Config_TokenTTL : Duration;
  Config_GRPC : GRPCConfig
}.

(** What the loader reads: the value of the flag [-config] once
    [flag.Parse] has run (empty when the flag is not given), the
    environment, whether [os.Stat] reports that a path does not exist, and
    what [cleanenv.ReadConfig] makes of a file. *)
Class Host : Type := {
  flag_config : string;
  os_Getenv : string -> string;
  os_Stat_IsNotExist : string -> bool;
  cleanenv_ReadConfig : string -> Config * option error
}.

Section config.
Context `{Host}.

Definition fetchConfigPath : string :=
  let res := flag_config in
  if bool_decide (res = "") then os_Getenv "CONFIG_PATH" else res.

Definition MustLoad : outcome Config :=
  let path := fetchConfigPath in
  if bool_decide (path = "") then panics (panic_string "config path is empty")
  else if os_Stat_IsNotExist path
  then panics (panic_string ("config file does not exist: " ++ path))
  else
    match cleanenv_ReadConfig path with
    | (_, Some err) => panics (panic_string_error "failed to read config: " err)
    | (cfg, None) => returns cfg
    end.

Definition MustLoadPath (configPath : string) : outcome Config :=
  if os_Stat_IsNotExist configPath
  then panics (panic_string ("config file does not exist: " ++ configPath))
  else
    match cleanenv_ReadConfig configPath with
    | (_, Some err) => panics (panic_string_error "cannot read config: " err)
    | (cfg, None) => returns cfg
    end.

End config.
End config.

(** ** Command [sso]: the logger *)

Module cmd_sso.

Definition envLocal : string := "local".
Definition envDev : string := "dev".
Definition envProd : string := "prod".

(** The numeric value of a [slog.Level]. *)
Definition Level_value (l : slog.Level) : Z :=
  match l with
  | slog.LevelDebug => -4
  | slog.LevelInfo => 0
  | slog.LevelWarn => 4
  | slog.LevelError => 8
  end.

Inductive Format : Type := Text | JSON.

(** A logger made by [slog.New] of a text or JSON handler on standard
    output with [HandlerOptions{Level: minLevel}]. *)
Record Logger : Type := mkLogger {
  format : Format;
  minLevel : slog.Level
}.

(** A handler handles the records whose level is at least its own. *)
Definition Enabled (l : Logger) (level : slog.Level) : bool :=
  (Level_value (minLevel l) <=? Level_value level)%Z.

(** [setupLogger]; [None] is the nil logger it returns when no case of the
    switch matches. *)
Definition setupLogger (env : string) : option Logger :=
  if bool_decide (env = envLocal) then Some (mkLogger Text slog.LevelDebug)
  else if bool_decide (env = envDev) then Some (mkLogger JSON slog.LevelDebug)
  else if bool_decide (env = envProd) then Some (mkLogger JSON slog.LevelInfo)
  else None.

End cmd_sso.

(** ** Package [grpcapp] *)

Module grpcapp.

(** The network and the gRPC server, as [Run] and [Stop] use them.
    [Server_Serve] answers when the server has stopped serving. *)
Class Net `{Env} : Type := {
  Listener : Type;
  Server : Type;
  net_Listen : string -> string -> World -> (Listener * option error) * World;
  Listener_Addr : Listener -> string;
  Server_Serve : Server -> Listener -> World -> option error * World;
  Server_GracefulStop : Server -> World -> World
}.

Section grpcapp.
Context `{Net}.

Record App : Type := mkApp {
  log : slog.Logger;
  gRPCServer : Server;
  port : Z
}.

Definition op_Run : string := "grpcapp.Run".
Definition op_Stop : string := "grpcapp.Stop".

(** [fmt.Sprintf(":%d", port)] *)
Definition address (port : Z) : string := ":" ++ pretty port.

Definition Run (a : App) : M (option error) :=
  let op := op_Run in
  let log' := slog.With (log a) [slog.String_ "op" op; slog.Int64 "port" (port a)] in
  let* (l, err) := call (net_Listen "tcp" (address (port a))) in
  match err with
  | Some err => ret (Some (fmt.Errorf op err))
  | None =>
      Logger.Info log' "gRPC server is running" [slog.String_ "addr" (Listener_Addr l)] ;;
      let* err := call (Server_Serve (gRPCServer a) l) in
      match err with
      | Some err => ret (Some (fmt.Errorf op err))
      | None => ret None
      end
  end.


Definition Stop (a : App) : M unit :=
  let op := op_Stop in
  Logger.Info (slog.With (log a) [slog.String_ "op" op]) "stopping gRPC server"
    [slog.Int64 "port" (port a)] ;;
  call (fun w => (tt, Server_GracefulStop (gRPCServer a) w)).

End grpcapp.
End grpcapp.

(** ** The migration command *)

Module migrator.

(** The migration library: [migrate.New], [Up], and whether an error is
    [migrate.ErrNoChange] in the sense of [errors.Is]. *)
Class Migrations : Type := {
  DB : Type;
  Migrate : Type;
  migrate_New : string -> string -> DB -> (Migrate * option error) * DB;
  Migrate_Up : Migrate -> DB -> option error * DB;
  is_ErrNoChange : error -> bool
}.

(** [flag.StringVar(&x, name, value, usage)] followed by [flag.Parse]:
    the value given on the command line, or the default. *)
Definition flag_String (given : string -> option string) (name value : string) : string :=
  default value (given name).

Section migrator.
Context `{Migrations}.

(** [fmt.Sprintf("sqlite3://%s?x-migrations-table=%s", ...)] *)
Definition database_url (storagePath migrationsTable : string) : string :=
  "sqlite3://" ++ storagePath ++ "?x-migrations-table=" ++ migrationsTable.

(** [main]: how it ends, the lines it prints, the database it leaves. *)
Definition main (given : string -> option string) (db : DB)
    : outcome unit * list string * DB :=
  let storagePath := flag_String given "storage-path" "" in
  let migrationsPath := flag_String given "migrations-path" "" in
  let migrationsTable := flag_String given "migrations-table" "migrations" in
  if bool_decide (storagePath = "")
  then (panics (panic_string "storage-path is required"), [], db)
  else if bool_decide (migrationsPath = "")
  then (panics (panic_string "migrations-path is required"), [], db)
  else
    match migrate_New ("file://" ++ migrationsPath)
            (database_url storagePath migrationsTable) db with
    | ((_, Some err), db1) => (panics (panic_error err), [], db1)
    | ((m, None), db1) =>
        match Migrate_Up m db1 with
        | (Some err, db2) =>
            if is_ErrNoChange err
            then (returns tt, ["no migrations to apply"], db2)
            else (panics (panic_error err), [], db2)
        | (None, db2) => (returns tt, ["migrations applied"], db2)
        end
    end.

End migrator.
End migrator.

(** ** A host, a network and a migration library to run the commands on *)

(** Stand-ins that compute, for running the loader, the server and the
    migration command on concrete inputs. *)
Module demo.

Definition config_yaml : config.Config :=
  config.mkConfig "local" "./storage/sso.db" 3600000000000
    (config.mkGRPCConfig 44044 10000000000).

(** No [-config] flag; [CONFIG_PATH] names the one file that exists. *)
#[export] Instance host : config.Host := {|
  config.flag_config := "";
  config.os_Getenv := fun key =>
    if bool_decide (key = "CONFIG_PATH") then "./config/local.yaml" else "";
  config.os_Stat_IsNotExist := fun path => negb (bool_decide (path = "./config/local.yaml"));
  config.cleanenv_ReadConfig := fun _ => (config_yaml, None)
|}.

(** The same host with a file that cannot be read. *)
Definition unreadable : config.Host := {|
  config.flag_config := "./config/local.yaml";
  config.os_Getenv := fun _ => "";
  config.os_Stat_IsNotExist := fun path => negb (bool_decide (path = "./config/local.yaml"));
  config.cleanenv_ReadConfig := fun _ =>
    (config.mkConfig "" "" 0 (config.mkGRPCConfig 0 0),
     Some (errorOther "yaml: bad indentation"))
|}.

(** Only port 44044 can be listened on; serving ends without error. *)
#[export] Instance net : @grpcapp.Net mem.env :=
  @grpcapp.Build_Net mem.env string unit
    (fun _ addr (db : mem.DB) =>
       if bool_decide (addr = ":44044") then ((addr, None), db)
       else (("", Some (errorOther "listen: address already in use")), db))
    (fun l => l)
    (fun _ _ (db : mem.DB) => (None, db))
    (fun _ (db : mem.DB) => db).

Definition app (port : Z) : @grpcapp.App mem.env net :=
  @grpcapp.mkApp mem.env net (slog.mkLogger []) tt port.

(** The database is its schema version; the migrations in
    [./migrations] bring it to version 2. *)
#[export] Instance migrations : migrator.Migrations := {|
  migrator.DB := Z;
  migrator.Migrate := Z;
  migrator.migrate_New := fun source _ db =>
    if bool_decide (source = "file://./migrations") then ((2, None), db)
    else ((0, Some (errorOther "source not found")), db);
  migrator.Migrate_Up := fun target db =>
    if bool_decide (db < target) then (None, target)
    else (Some (errorOther "no change"), db);
  migrator.is_ErrNoChange := fun err => bool_decide (err = errorOther "no change")
|}.

(** A user store whose every call fails with an error of its own. *)
Definition locked : error := fmt.Errorf "mem.locked" (errorOther "database is locked").

Definition locked_saver : @auth.UserSaver mem.env :=
  @auth.Build_UserSaver mem.env (fun _ _ _ (db : mem.DB) => ((0, Some locked), db)).

Definition locked_provider : @auth.UserProvider mem.env :=
  @auth.Build_UserProvider mem.env
    (fun _ _ (db : mem.DB) => ((mem.zeroUser, Some locked), db))
    (fun _ _ (db : mem.DB) => ((false, Some locked), db))
    (fun _ _ (db : mem.DB) => ((false, Some locked), db)).

Definition locked_service : @auth.AuthService mem.env :=
  @auth.New mem.env (slog.mkLogger []) locked_saver locked_provider mem.app_provider
    3600000000000.

(** The command line [-storage-path ./storage/sso.db -migrations-path
    ./migrations]. *)
Definition args (name : string) : option string :=
  if bool_decide (name = "storage-path") then Some "./storage/sso.db"
  else if bool_decide (name = "migrations-path") then Some "./migrations"
  else None.

End demo.

(** * Proofs *)

(** ** Facts about errors *)

Lemma Is_Errorf (op : string) (err : error) (v : var) :
  errors.Is (fmt.Errorf op err) v = errors.Is err v.
Proof. reflexivity. Qed.

Lemma Is_var (v t : var) : errors.Is (errorVar v) t = true <-> v = t.
Proof. cbn. apply bool_decide_eq_true. Qed.

(** An error chain ends in one leaf, so it is of at most one kind. *)
Lemma Is_functional (err : error) (v1 v2 : var) :
  errors.Is err v1 = true -> errors.Is err v2 = true -> v1 = v2.
Proof.
  induction err as [v | t | p e IH]; cbn [errors.Is].
  - intros H1 H2. apply bool_decide_eq_true in H1, H2. congruence.
  - discriminate.
  - exact IH.
Qed.

(** ** Every run follows one of the paths *)

(** Unfold one operation down to the store and library calls. *)
Ltac unfold_service :=
  unfold auth.Login, auth.RegisterNewUser, auth.IsAdmin, auth.IsUserExists,
    jwt.NewToken, jwt.SignedString, time.Now,
    bcrypt.GenerateFromPassword, bcrypt.CompareHashAndPassword,
    auth.call_User, auth.call_IsAdmin, auth.call_IsUserExists,
    auth.call_SaveUser, auth.call_App,
    Logger.Info, Logger.Warn, Logger.Error, Logger.Log,
    bind, ret, emit, call; cbn [world trace fst snd].

(** Close a goal [_path ...] with the constructor instance [P]. *)
Ltac by_path P :=
  unfold reg_attrs, ev_hash, query_attrs, signing_events, expiry in *;
  cbn; rewrite <- ?app_assoc in *; exact P.

Section Runs.
Context `{Env}.
Variable a : auth.AuthService.
Variable ctx : Context.

(** [Login] always returns, along one of its paths. *)
Lemma Login_follows_path email password appID s :
  Login_path a ctx email password appID s
    (fst (auth.Login a ctx email password appID s))
    (snd (auth.Login a ctx email password appID s)).
Proof.
  destruct (auth.UserProvider_User (auth.usrProvider a) ctx email (world s))
    as [[user [err|]] w1] eqn:HU.
  - destruct (errors.Is err storage.ErrUserNotFound) eqn:HIs.
    + pose proof (path_unknown_email a ctx email password appID s _ _ _ HU HIs) as P.
      unfold_service. rewrite HU, HIs. by_path P.
    + pose proof (path_user_error a ctx email password appID s _ _ _ HU HIs) as P.
      unfold_service. rewrite HU, HIs. by_path P.
  - destruct (bcrypt_CompareHashAndPassword (models.User_PassHash user)
                (list_byte_of_string password)) as [err|] eqn:HC.
    + pose proof (path_wrong_password a ctx email password appID s _ _ _ HU HC) as P.
      unfold_service. rewrite HU. cbn. rewrite HC. by_path P.
    + destruct (auth.AppProvider_App (auth.appProvider a) ctx appID w1)
        as [[app [err|]] w2] eqn:HA.
      * pose proof (path_app_error a ctx email password appID s _ _ _ _ _ HU HC HA) as P.
        unfold_service. rewrite HU. cbn. rewrite HC. cbn. rewrite HA. by_path P.
      * destruct (jwt_SignedString
                    (built_token user app (expiry w2 (auth.tokenTTL a)))
                    (list_byte_of_string (models.App_Secret app)))
          as [str [err|]] eqn:HS.
        -- pose proof (path_sign_error a ctx email password appID s
                         _ _ _ _ _ _ HU HC HA HS) as P.
           unfold_service. rewrite HU. cbn. rewrite HC. cbn. rewrite HA. cbn.
           unfold signing_events, expiry in *.
           destruct (time_Now w2) as [now w3]. cbn in *.
           unfold built_token in HS. rewrite HS. by_path P.
        -- pose proof (path_success a ctx email password appID s
                         _ _ _ _ _ HU HC HA HS) as P.
           unfold_service. rewrite HU. cbn. rewrite HC. cbn. rewrite HA. cbn.
           unfold signing_events, expiry in *.
           destruct (time_Now w2) as [now w3]. cbn in *.
           unfold built_token in HS. rewrite HS. by_path P.
Qed.

(** [RegisterNewUser] always returns, along one of its paths. *)
Lemma Register_follows_path email pass s :
  Register_path a ctx email pass s
    (fst (auth.RegisterNewUser a ctx email pass s))
    (snd (auth.RegisterNewUser a ctx email pass s)).
Proof.
  destruct (bcrypt_GenerateFromPassword (list_byte_of_string pass)
              bcrypt.DefaultCost (world s)) as [[passHash [err|]] w1] eqn:HG.
  - pose proof (path_hash_error a ctx email pass s _ _ _ HG) as P.
    unfold_service. rewrite HG. by_path P.
  - destruct (auth.SaveUser (auth.usrSaver a) ctx email passHash w1)
      as [[id [err|]] w2] eqn:HS.
    + destruct (errors.Is err storage.ErrUserExists) eqn:HIs.
      * pose proof (path_user_exists a ctx email pass s _ _ _ _ _ HG HS HIs) as P.
        unfold_service. rewrite HG. cbn. rewrite HS. cbn. rewrite HIs. by_path P.
      * pose proof (path_save_error a ctx email pass s _ _ _ _ _ HG HS HIs) as P.
        unfold_service. rewrite HG. cbn. rewrite HS. cbn. rewrite HIs. by_path P.
    + pose proof (path_registered a ctx email pass s _ _ _ _ HG HS) as P.
      unfold_service. rewrite HG. cbn. rewrite HS. by_path P.
Qed.

(** [IsAdmin] always returns, along one of its paths. *)
Lemma IsAdmin_follows_path userID s :
  IsAdmin_path a ctx userID s
    (fst (auth.IsAdmin a ctx userID s)) (snd (auth.IsAdmin a ctx userID s)).
Proof.
  unfold IsAdmin_path.
  destruct (auth.UserProvider_IsAdmin (auth.usrProvider a) ctx userID (world s))
    as [[answer [err|]] w1] eqn:HQ.
  - destruct (errors.Is err storage.ErrUserNotFound) eqn:HIs.
    + epose proof (path_not_found a ctx userID _ _ _ _ _ _ s _ _ _ HQ HIs) as P.
      unfold_service. rewrite HQ. cbn. rewrite HIs. by_path P.
    + epose proof (path_query_error a ctx userID _ _ _ _ _ _ s _ _ _ HQ HIs) as P.
      unfold_service. rewrite HQ. cbn. rewrite HIs. by_path P.
  - epose proof (path_answer a ctx userID _ _ _ _ _ _ s _ _ HQ) as P.
    unfold_service. rewrite HQ. by_path P.
Qed.

(** [IsUserExists] always returns, along one of its paths. *)
Lemma IsUserExists_follows_path userID s :
  IsUserExists_path a ctx userID s
    (fst (auth.IsUserExists a ctx userID s)) (snd (auth.IsUserExists a ctx userID s)).
Proof.
  unfold IsUserExists_path.
  destruct (auth.UserProvider_IsUserExists (auth.usrProvider a) ctx userID (world s))
    as [[answer [err|]] w1] eqn:HQ.
  - destruct (errors.Is err storage.ErrUserNotFound) eqn:HIs.
    + epose proof (path_not_found a ctx userID _ _ _ _ _ _ s _ _ _ HQ HIs) as P.
      unfold_service. rewrite HQ. cbn. rewrite HIs. by_path P.
    + epose proof (path_query_error a ctx userID _ _ _ _ _ _ s _ _ _ HQ HIs) as P.
      unfold_service. rewrite HQ. cbn. rewrite HIs. by_path P.
  - epose proof (path_answer a ctx userID _ _ _ _ _ _ s _ _ HQ) as P.
    unfold_service. rewrite HQ. by_path P.
Qed.

End Runs.

(** ** The claims of the specification *)

Section Claims.
Context `{Env}.

(** Consider the path a run of [Login] has followed. *)
Ltac login_paths a ctx email password appID s :=
  destruct (Login_follows_path a ctx email password appID s)
    as [user err w1 HU HIs | user err w1 HU HIs | user w1 err HU HC
       | user w1 app err w2 HU HC HA | user w1 app w2 str err HU HC HA HS
       | user w1 app w2 str HU HC HA HS].

(** The kind of [fmt.Errorf op (errorVar k)] is [k] and no other. *)
Lemma kind_of_classified (op : string) (k v : var) :
  errors.Is (fmt.Errorf op (errorVar k)) v = true <-> v = k.
Proof. rewrite Is_Errorf, Is_var. split; congruence. Qed.

(** C1.  If the user store reports that no user has the email, or the
    user is found and the password does not match the stored hash,
    [Login] fails with the [InvalidCredentials] kind; the value returned
    is the same in both cases. *)
Theorem Login_invalid_credentials
    (a : auth.AuthService) (ctx : Context) (email password : string) (appID : Z)
    (s : State) :
  unknown_email a ctx email (world s) = true \/
  wrong_password a ctx email password (world s) = true ->
  fst (auth.Login a ctx email password appID s)
    = ("", Some (fmt.Errorf auth.op_Login auth.ErrInvalidCredentials)) /\
  (forall v, errors.Is (fmt.Errorf auth.op_Login auth.ErrInvalidCredentials) v = true
             <-> v = auth_ErrInvalidCredentials).
Proof.
  intros Hbad. split; [| intros v; apply kind_of_classified].
  unfold unknown_email, wrong_password in Hbad.
  login_paths a ctx email password appID s; try reflexivity;
    rewrite HU in Hbad; cbn in Hbad; rewrite ?HC in Hbad;
    destruct Hbad; congruence.
Qed.

(** A run that rejects the credentials, in full: the value returned, the
    world left behind and the events added. *)
Lemma Login_rejected_run
    (a : auth.AuthService) (ctx : Context) (email password : string) (appID : Z)
    (s : State) :
  invalid_credentials a ctx email password (world s) = true ->
  auth.Login a ctx email password appID s =
    (("", Some (fmt.Errorf auth.op_Login auth.ErrInvalidCredentials)),
     {| world := after_User a ctx email (world s);
        trace := trace s ++ rejection_events a ctx email password (world s) |}).
Proof.
  intros Hbad.
  rewrite (surjective_pairing (auth.Login a ctx email password appID s)).
  unfold invalid_credentials, unknown_email, wrong_password, after_User,
    rejection_events in *.
  login_paths a ctx email password appID s;
    rewrite HU in *; cbn in *; rewrite ?HC in *; cbn in *;
    rewrite ?orb_false_r in *; try reflexivity; congruence.
Qed.

Lemma rejection_events_no_App
    (a : auth.AuthService) (ctx : Context) (email password : string) (w : World) :
  forallb (fun e => negb (is_EvApp e)) (rejection_events a ctx email password w) = true.
Proof.
  unfold rejection_events.
  destruct (fst (auth.UserProvider_User (auth.usrProvider a) ctx email w))
    as [user [err|]]; [reflexivity |].
  destruct (bcrypt_CompareHashAndPassword _ _); reflexivity.
Qed.

(** C5, as the code has it.  The password is verified before the
    application is looked up: with invalid credentials [Login] returns
    [InvalidCredentials] without calling the application store.  The run
    adds no [EvApp] event, and two services that share the logger and the
    user store return the same value and leave the same state whatever
    their application stores and whatever application ids they are asked
    for: a login with invalid credentials does not reveal whether the
    application exists. *)
Theorem Login_rejects_before_app_lookup
    (a1 a2 : auth.AuthService) (ctx : Context) (email password : string)
    (appID1 appID2 : Z) (s : State) :
  auth.log a1 = auth.log a2 ->
  auth.usrProvider a1 = auth.usrProvider a2 ->
  invalid_credentials a1 ctx email password (world s) = true ->
  auth.Login a1 ctx email password appID1 s = auth.Login a2 ctx email password appID2 s /\
  fst (auth.Login a1 ctx email password appID1 s)
    = ("", Some (fmt.Errorf auth.op_Login auth.ErrInvalidCredentials)) /\
  exists evs,
    appended s (snd (auth.Login a1 ctx email password appID1 s)) evs /\
    forallb (fun e => negb (is_EvApp e)) evs = true.
Proof.
  intros Hlog Hprov Hbad.
  assert (Hbad2 : invalid_credentials a2 ctx email password (world s) = true).
  { unfold invalid_credentials, unknown_email, wrong_password in *.
    rewrite <- Hprov. exact Hbad. }
  rewrite (Login_rejected_run a1 ctx email password appID1 s Hbad).
  rewrite (Login_rejected_run a2 ctx email password appID2 s Hbad2).
  split; [| split].
  - unfold after_User, rejection_events, ev_attempt, ev_err.
    rewrite Hlog, Hprov. reflexivity.
  - reflexivity.
  - exists (rejection_events a1 ctx email password (world s)). split.
    + reflexivity.
    + apply rejection_events_no_App.
Qed.

(** C6.  With valid credentials, an error of the application store (not
    found or any other) comes back as [fmt.Errorf(op, err)]: unwrapping
    gives the store's error, and the result is of exactly the kinds the
    store's error is of. *)
Theorem Login_app_error_is_wrapped
    (a : auth.AuthService) (ctx : Context) (email password : string) (appID : Z)
    (s : State) (appErr : error) :
  valid_credentials a ctx email password (world s) = true ->
  snd (fst (auth.AppProvider_App (auth.appProvider a) ctx appID
              (after_User a ctx email (world s)))) = Some appErr ->
  fst (auth.Login a ctx email password appID s)
    = ("", Some (fmt.Errorf auth.op_Login appErr)) /\
  errors.Unwrap (fmt.Errorf auth.op_Login appErr) = Some appErr /\
  (forall v, errors.Is (fmt.Errorf auth.op_Login appErr) v = errors.Is appErr v).
Proof.
  intros Hok Happ. split; [| split; [reflexivity | intros v; apply Is_Errorf]].
  unfold valid_credentials, after_User in *.
  login_paths a ctx email password appID s;
    rewrite HU in *; cbn in *; rewrite ?HC in *; try discriminate;
    rewrite HA in *; cbn in *; congruence.
Qed.

Lemma built_token_carries (user : models.User) (app : models.App) (exp : Z) :
  carries (built_token user app exp) user app exp.
Proof.
  unfold carries, built_token, jwtlib.set_claim, jwtlib.New. cbn.
  split; [reflexivity |]. split.
  - rewrite !dom_insert_L, dom_empty_L. set_solver.
  - repeat split; by simplify_map_eq.
Qed.

(** A run of [jwt.NewToken], in full. *)
Lemma NewToken_run (user : models.User) (app : models.App) (duration : Duration)
    (s : State) :
  jwt.NewToken user app duration s =
    (let (str, err) :=
       jwt_SignedString (built_token user app (expiry (world s) duration))
         (list_byte_of_string (models.App_Secret app)) in
     match err with
     | Some err => ("", Some err)
     | None => (str, None)
     end,
     {| world := snd (time_Now (world s));
        trace := trace s ++
          [EvNow;
           EvSignedString (built_token user app (expiry (world s) duration))
             (list_byte_of_string (models.App_Secret app))] |}).
Proof.
  unfold_service. unfold expiry, built_token.
  destruct (time_Now (world s)) as [now w1]. cbn.
  destruct (jwt_SignedString _ _) as [str [err|]]; cbn;
    rewrite <- ?app_assoc; reflexivity.
Qed.

(** C2.  The token [jwt.NewToken] signs has the method HS256, which is
    symmetric, and exactly the claims [uid], [email], [app_id] and [exp],
    [exp] being [time.Now().Add(duration).Unix()]; the key is the
    application's secret.  A successful [Login] returns the signature of
    that token for the user and the application the stores gave it, with
    the service's [tokenTTL] as duration. *)
Theorem issued_token_claims :
  (forall (user : models.User) (app : models.App) (duration : Duration) (s : State),
      let exp := expiry (world s) duration in
      let key := list_byte_of_string (models.App_Secret app) in
      carries (built_token user app exp) user app exp /\
      exp = time_Unix (time_Add (fst (time_Now (world s))) duration) /\
      appended s (snd (jwt.NewToken user app duration s))
        [EvNow; EvSignedString (built_token user app exp) key] /\
      fst (jwt.NewToken user app duration s) =
        (let (str, err) := jwt_SignedString (built_token user app exp) key in
         match err with
         | Some err => ("", Some err)
         | None => (str, None)
         end)) /\
  (forall (a : auth.AuthService) (ctx : Context) (email password : string)
          (appID : Z) (s : State) (token : string),
      fst (auth.Login a ctx email password appID s) = (token, None) ->
      exists user w1 app w2,
        auth.UserProvider_User (auth.usrProvider a) ctx email (world s)
          = ((user, None), w1) /\
        auth.AppProvider_App (auth.appProvider a) ctx appID w1 = ((app, None), w2) /\
        let exp := expiry w2 (auth.tokenTTL a) in
        let key := list_byte_of_string (models.App_Secret app) in
        carries (built_token user app exp) user app exp /\
        jwt_SignedString (built_token user app exp) key = (token, None) /\
        In (EvSignedString (built_token user app exp) key)
           (trace (snd (auth.Login a ctx email password appID s)))).
Proof.
  split.
  - intros user app duration s exp key. rewrite NewToken_run.
    repeat split; try apply built_token_carries.
  - intros a ctx email password appID s token.
    login_paths a ctx email password appID s; intros Hres; try discriminate.
    injection Hres as ->.
    exists user, w1, app, w2. cbn zeta.
    repeat split; try apply built_token_carries; try assumption.
    cbn [trace]. apply in_or_app. right. unfold signing_events.
    do 6 right. left. reflexivity.
Qed.

(** Consider the path a run of [RegisterNewUser] has followed. *)
Ltac register_paths a ctx email pass s :=
  destruct (Register_follows_path a ctx email pass s)
    as [passHash' err' w1' HG | passHash' w1' id' err' w2' HG HS HIs
       | passHash' w1' id' err' w2' HG HS HIs | passHash' w1' id' w2' HG HS].

(** A run of [RegisterNewUser] whose save is accepted leaves the world
    the store has left. *)
Lemma Register_accepted_run
    (a : auth.AuthService) (ctx : Context) (email pass : string) (s : State)
    (passHash : list byte) (w1 : World) (id : Z) (w2 : World) :
  bcrypt_GenerateFromPassword (list_byte_of_string pass) bcrypt.DefaultCost (world s)
    = ((passHash, None), w1) ->
  auth.SaveUser (auth.usrSaver a) ctx email passHash w1 = ((id, None), w2) ->
  fst (auth.RegisterNewUser a ctx email pass s) = (id, None) /\
  world (snd (auth.RegisterNewUser a ctx email pass s)) = w2.
Proof.
  intros HG0 HS0. register_paths a ctx email pass s;
    rewrite HG0 in HG; try congruence; injection HG as <- <-;
    rewrite HS0 in HS; try congruence.
  injection HS as <- <-. split; reflexivity.
Qed.

Lemma Register_refused_run
    (a : auth.AuthService) (ctx : Context) (email pass : string) (s : State)
    (passHash : list byte) (w1 : World) (err : error) :
  bcrypt_GenerateFromPassword (list_byte_of_string pass) bcrypt.DefaultCost (world s)
    = ((passHash, None), w1) ->
  snd (fst (auth.SaveUser (auth.usrSaver a) ctx email passHash w1)) = Some err ->
  errors.Is err storage.ErrUserExists = true ->
  fst (auth.RegisterNewUser a ctx email pass s)
    = (0, Some (fmt.Errorf auth.op_RegisterNewUser auth.ErrUserExists)).
Proof.
  intros HG0 HS0 HIs0. register_paths a ctx email pass s;
    rewrite HG0 in HG; try congruence; injection HG as <- <-;
    rewrite HS in HS0; cbn in HS0; try reflexivity; congruence.
Qed.

(** C3.  Once the password is hashed: if the user store accepts the
    save, [RegisterNewUser] returns the id the store assigned and no
    error; if the store reports that the user exists, it fails with the
    [UserExists] kind.  So with a store that keeps emails unique, a
    second registration of an email just registered fails with
    [UserExists]. *)
Theorem RegisterNewUser_outcome
    (a : auth.AuthService) (ctx : Context) (email pass : string) (s : State)
    (passHash : list byte) (w1 : World) :
  bcrypt_GenerateFromPassword (list_byte_of_string pass) bcrypt.DefaultCost (world s)
    = ((passHash, None), w1) ->
  (forall id w2,
      auth.SaveUser (auth.usrSaver a) ctx email passHash w1 = ((id, None), w2) ->
      fst (auth.RegisterNewUser a ctx email pass s) = (id, None)) /\
  (forall err,
      snd (fst (auth.SaveUser (auth.usrSaver a) ctx email passHash w1)) = Some err ->
      errors.Is err storage.ErrUserExists = true ->
      fst (auth.RegisterNewUser a ctx email pass s)
        = (0, Some (fmt.Errorf auth.op_RegisterNewUser auth.ErrUserExists))) /\
  (forall taken id w2 pass2 passHash2 w3,
      unique_emails (auth.usrSaver a) taken ->
      auth.SaveUser (auth.usrSaver a) ctx email passHash w1 = ((id, None), w2) ->
      bcrypt_GenerateFromPassword (list_byte_of_string pass2) bcrypt.DefaultCost w2
        = ((passHash2, None), w3) ->
      fst (auth.RegisterNewUser a ctx email pass s) = (id, None) /\
      fst (auth.RegisterNewUser a ctx email pass2
             (snd (auth.RegisterNewUser a ctx email pass s)))
        = (0, Some (fmt.Errorf auth.op_RegisterNewUser auth.ErrUserExists))).
Proof.
  intros HG. split; [| split].
  - intros id w2 HS. apply (Register_accepted_run a ctx email pass s _ _ _ _ HG HS).
  - intros err HS HIs. apply (Register_refused_run a ctx email pass s _ _ _ HG HS HIs).
  - intros taken id w2 pass2 passHash2 w3 Huniq HS HG2.
    destruct (Register_accepted_run a ctx email pass s _ _ _ _ HG HS) as [Hfst Hworld].
    split; [exact Hfst |].
    assert (Htaken : taken w3 email).
    { pose proof (hashing_keeps_taken _ _ Huniq (list_byte_of_string pass2)
                    bcrypt.DefaultCost w2 email
                    (accepted_is_taken _ _ Huniq _ _ _ _ _ _ HS)) as Hk.
      rewrite HG2 in Hk. exact Hk. }
    destruct (taken_is_refused _ _ Huniq ctx email passHash2 w3 Htaken)
      as [err [Herr HIs]].
    apply (Register_refused_run a ctx email pass2 _ passHash2 w3 err);
      [rewrite Hworld; exact HG2 | exact Herr | exact HIs].
Qed.

(** Consider the path a query has followed. *)
Ltac query_paths P :=
  destruct P as [answer err w1 HQ HIs | answer err w1 HQ HIs | answer w1 HQ].

(** C4.  When the user store reports "user not found", [IsAdmin] and
    [IsUserExists] both fail with an error that wraps [ErrInvalidAppID],
    so the two errors are of the same kind, [InvalidAppID]. *)
Theorem queries_not_found_same_kind
    (a : auth.AuthService) (ctx : Context) (userID : Z) (s1 s2 : State) :
  reports_not_found
    (fst (auth.UserProvider_IsAdmin (auth.usrProvider a) ctx userID (world s1))) = true ->
  reports_not_found
    (fst (auth.UserProvider_IsUserExists (auth.usrProvider a) ctx userID (world s2)))
    = true ->
  fst (auth.IsAdmin a ctx userID s1)
    = (false, Some (fmt.Errorf auth.op_IsAdmin auth.ErrInvalidAppID)) /\
  fst (auth.IsUserExists a ctx userID s2)
    = (false, Some (fmt.Errorf auth.op_IsUserExists auth.ErrInvalidAppID)) /\
  (forall v,
      errors.Is (fmt.Errorf auth.op_IsAdmin auth.ErrInvalidAppID) v
      = errors.Is (fmt.Errorf auth.op_IsUserExists auth.ErrInvalidAppID) v) /\
  (forall v,
      errors.Is (fmt.Errorf auth.op_IsAdmin auth.ErrInvalidAppID) v = true
      <-> v = auth_ErrInvalidAppID).
Proof.
  unfold reports_not_found. intros H1 H2.
  split; [| split; [| split; [reflexivity | intros v; apply kind_of_classified]]].
  - query_paths (IsAdmin_follows_path a ctx userID s1);
      rewrite HQ in H1; cbn in H1; congruence.
  - query_paths (IsUserExists_follows_path a ctx userID s2);
      rewrite HQ in H2; cbn in H2; congruence.
Qed.

(** C10.  Next to an error every operation returns the zero value of
    its result type: the empty string, user id 0, [false]. *)
Theorem error_comes_with_zero_value
    (a : auth.AuthService) (ctx : Context) (s : State) :
  (forall email password appID,
      snd (fst (auth.Login a ctx email password appID s)) <> None ->
      fst (fst (auth.Login a ctx email password appID s)) = "") /\
  (forall email pass,
      snd (fst (auth.RegisterNewUser a ctx email pass s)) <> None ->
      fst (fst (auth.RegisterNewUser a ctx email pass s)) = 0) /\
  (forall userID,
      snd (fst (auth.IsAdmin a ctx userID s)) <> None ->
      fst (fst (auth.IsAdmin a ctx userID s)) = false) /\
  (forall userID,
      snd (fst (auth.IsUserExists a ctx userID s)) <> None ->
      fst (fst (auth.IsUserExists a ctx userID s)) = false).
Proof.
  repeat split.
  - intros email password appID.
    login_paths a ctx email password appID s; cbn; congruence.
  - intros email pass. register_paths a ctx email pass s; cbn; congruence.
  - intros userID. query_paths (IsAdmin_follows_path a ctx userID s); cbn; congruence.
  - intros userID. query_paths (IsUserExists_follows_path a ctx userID s);
      cbn; congruence.
Qed.

(** *** Where the error an operation returns comes from *)

Lemma none_Is_In (v : var) (errs : list error) (e : error) :
  none_Is v errs = true -> In e errs -> errors.Is e v = false.
Proof.
  unfold none_Is. rewrite forallb_forall. intros Hall Hin.
  apply negb_true_iff, Hall, Hin.
Qed.

(** [Login] returns [fmt.Errorf(op, inner)], [inner] being
    [ErrInvalidCredentials] or an error a store or the signer returned. *)
Lemma Login_error_origin
    (a : auth.AuthService) (ctx : Context) (email password : string) (appID : Z)
    (s : State) (e : error) :
  snd (fst (auth.Login a ctx email password appID s)) = Some e ->
  exists inner,
    e = fmt.Errorf auth.op_Login inner /\
    (inner = auth.ErrInvalidCredentials \/
     In inner (Login_received a ctx email password appID (world s))).
Proof.
  unfold Login_received.
  login_paths a ctx email password appID s; cbn [fst snd]; intros He;
    try discriminate; injection He as <-;
    rewrite HU; rewrite ?HC; rewrite ?HA; rewrite ?HS; cbn [fst snd];
    eexists; (split; [reflexivity |]); auto using in_eq.
Qed.

Lemma Register_error_origin
    (a : auth.AuthService) (ctx : Context) (email pass : string)
    (s : State) (e : error) :
  snd (fst (auth.RegisterNewUser a ctx email pass s)) = Some e ->
  exists inner,
    e = fmt.Errorf auth.op_RegisterNewUser inner /\
    (inner = auth.ErrUserExists \/
     In inner (Register_received a ctx email pass (world s))).
Proof.
  unfold Register_received.
  register_paths a ctx email pass s; cbn [fst snd]; intros He;
    try discriminate; injection He as <-;
    rewrite HG; rewrite ?HS; cbn [fst snd];
    eexists; (split; [reflexivity |]); auto using in_eq.
Qed.

Lemma IsAdmin_error_origin
    (a : auth.AuthService) (ctx : Context) (userID : Z) (s : State) (e : error) :
  snd (fst (auth.IsAdmin a ctx userID s)) = Some e ->
  exists inner,
    e = fmt.Errorf auth.op_IsAdmin inner /\
    ((inner = auth.ErrInvalidAppID /\
      reports_not_found
        (fst (auth.UserProvider_IsAdmin (auth.usrProvider a) ctx userID (world s)))
        = true) \/
     In inner (IsAdmin_received a ctx userID (world s))).
Proof.
  unfold IsAdmin_received, reports_not_found.
  query_paths (IsAdmin_follows_path a ctx userID s); cbn [fst snd]; intros He;
    try discriminate; injection He as <-; rewrite HQ; cbn [fst snd];
    eexists; (split; [reflexivity |]); auto using in_eq.
Qed.

Lemma IsUserExists_error_origin
    (a : auth.AuthService) (ctx : Context) (userID : Z) (s : State) (e : error) :
  snd (fst (auth.IsUserExists a ctx userID s)) = Some e ->
  exists inner,
    e = fmt.Errorf auth.op_IsUserExists inner /\
    ((inner = auth.ErrInvalidAppID /\
      reports_not_found
        (fst (auth.UserProvider_IsUserExists (auth.usrProvider a) ctx userID (world s)))
        = true) \/
     In inner (IsUserExists_received a ctx userID (world s))).
Proof.
  unfold IsUserExists_received, reports_not_found.
  query_paths (IsUserExists_follows_path a ctx userID s); cbn [fst snd]; intros He;
    try discriminate; injection He as <-; rewrite HQ; cbn [fst snd];
    eexists; (split; [reflexivity |]); auto using in_eq.
Qed.

(** An operation returns no error only when no call it made returned
    one. *)
Lemma Login_nil_error
    (a : auth.AuthService) (ctx : Context) (email password : string) (appID : Z)
    (s : State) :
  snd (fst (auth.Login a ctx email password appID s)) = None ->
  valid_credentials a ctx email password (world s) = true /\
  Login_received a ctx email password appID (world s) = [].
Proof.
  unfold valid_credentials, Login_received.
  login_paths a ctx email password appID s; cbn [fst snd]; intros He;
    try discriminate.
  rewrite HU. cbn [fst snd]. rewrite HC, HA, HS. split; reflexivity.
Qed.

Lemma Register_nil_error
    (a : auth.AuthService) (ctx : Context) (email pass : string) (s : State) :
  snd (fst (auth.RegisterNewUser a ctx email pass s)) = None ->
  Register_received a ctx email pass (world s) = [].
Proof.
  unfold Register_received.
  register_paths a ctx email pass s; cbn [fst snd]; intros He; try discriminate.
  rewrite HG, HS. reflexivity.
Qed.

Lemma Register_hash_error_run
    (a : auth.AuthService) (ctx : Context) (email pass : string) (s : State)
    (passHash : list byte) (e : error) (w1 : World) :
  bcrypt_GenerateFromPassword (list_byte_of_string pass) bcrypt.DefaultCost (world s)
    = ((passHash, Some e), w1) ->
  auth.RegisterNewUser a ctx email pass s =
    ((0, Some (fmt.Errorf auth.op_RegisterNewUser e)),
     {| world := w1;
        trace := trace s ++
          [EvLog slog.LevelInfo "registering new user" (reg_attrs a email);
           ev_hash pass;
           EvLog slog.LevelError "failed ot generate password hash"
             (reg_attrs a email ++ [slog.ErrText "error" e])] |}).
Proof.
  intros HG0.
  rewrite (surjective_pairing (auth.RegisterNewUser a ctx email pass s)).
  register_paths a ctx email pass s; rewrite HG0 in HG; congruence.
Qed.

(** C7.  Every error an operation returns is [fmt.Errorf(op, inner)]
    with the operation's own name, [inner] being the classified error or
    the error a store, bcrypt or the signer returned.  A hashing
    failure ends [RegisterNewUser] with that error wrapped, after one
    call to bcrypt and none to the store.  No operation returns a nil
    error after a call it made has failed.  The last four parts say
    which error comes back, for every answer of the collaborators: the
    classified one on "user not found", on a wrong password and on "user
    exists", and otherwise the very error of the first call that
    failed. *)
Theorem failures_are_wrapped_and_returned
    (a : auth.AuthService) (ctx : Context) (s : State) :
  (forall email password appID e,
      snd (fst (auth.Login a ctx email password appID s)) = Some e ->
      exists inner,
        e = fmt.Errorf "Auth.Login" inner /\
        (inner = auth.ErrInvalidCredentials \/
         In inner (Login_received a ctx email password appID (world s)))) /\
  (forall email pass e,
      snd (fst (auth.RegisterNewUser a ctx email pass s)) = Some e ->
      exists inner,
        e = fmt.Errorf "auth.RegisterNewUser" inner /\
        (inner = auth.ErrUserExists \/
         In inner (Register_received a ctx email pass (world s)))) /\
  (forall userID e,
      snd (fst (auth.IsAdmin a ctx userID s)) = Some e ->
      exists inner,
        e = fmt.Errorf "Auth.IsAdmin" inner /\
        (inner = auth.ErrInvalidAppID \/
         In inner (IsAdmin_received a ctx userID (world s)))) /\
  (forall userID e,
      snd (fst (auth.IsUserExists a ctx userID s)) = Some e ->
      exists inner,
        e = fmt.Errorf "Auth.IsUserExists" inner /\
        (inner = auth.ErrInvalidAppID \/
         In inner (IsUserExists_received a ctx userID (world s)))) /\
  (forall email pass passHash e w1,
      bcrypt_GenerateFromPassword (list_byte_of_string pass) bcrypt.DefaultCost
        (world s) = ((passHash, Some e), w1) ->
      fst (auth.RegisterNewUser a ctx email pass s)
        = (0, Some (fmt.Errorf "auth.RegisterNewUser" e)) /\
      exists evs,
        appended s (snd (auth.RegisterNewUser a ctx email pass s)) evs /\
        List.filter is_EvGenerate evs = [ev_hash pass] /\
        List.filter is_EvSaveUser evs = []) /\
  (forall email password appID,
      snd (fst (auth.Login a ctx email password appID s)) = None ->
      valid_credentials a ctx email password (world s) = true /\
      Login_received a ctx email password appID (world s) = []) /\
  (forall email pass,
      snd (fst (auth.RegisterNewUser a ctx email pass s)) = None ->
      Register_received a ctx email pass (world s) = []) /\
  (forall userID,
      snd (fst (auth.IsAdmin a ctx userID s)) = None ->
      IsAdmin_received a ctx userID (world s) = []) /\
  (forall userID,
      snd (fst (auth.IsUserExists a ctx userID s)) = None ->
      IsUserExists_received a ctx userID (world s) = []) /\
  (forall email password appID,
      snd (fst (auth.Login a ctx email password appID s)) =
        match auth.UserProvider_User (auth.usrProvider a) ctx email (world s) with
        | ((_, Some err), _) =>
            Some (fmt.Errorf "Auth.Login"
                    (if errors.Is err storage.ErrUserNotFound
                     then auth.ErrInvalidCredentials else err))
        | ((user, None), w1) =>
            match bcrypt_CompareHashAndPassword (models.User_PassHash user)
                    (list_byte_of_string password) with
            | Some _ => Some (fmt.Errorf "Auth.Login" auth.ErrInvalidCredentials)
            | None =>
                match auth.AppProvider_App (auth.appProvider a) ctx appID w1 with
                | ((_, Some err), _) => Some (fmt.Errorf "Auth.Login" err)
                | ((app, None), w2) =>
                    match snd (jwt_SignedString
                                 (built_token user app (expiry w2 (auth.tokenTTL a)))
                                 (list_byte_of_string (models.App_Secret app))) with
                    | Some err => Some (fmt.Errorf "Auth.Login" err)
                    | None => None
                    end
                end
            end
        end) /\
  (forall email pass,
      snd (fst (auth.RegisterNewUser a ctx email pass s)) =
        match bcrypt_GenerateFromPassword (list_byte_of_string pass) bcrypt.DefaultCost
                (world s) with
        | ((_, Some err), _) => Some (fmt.Errorf "auth.RegisterNewUser" err)
        | ((passHash, None), w1) =>
            match snd (fst (auth.SaveUser (auth.usrSaver a) ctx email passHash w1)) with
            | Some err =>
                Some (fmt.Errorf "auth.RegisterNewUser"
                        (if errors.Is err storage.ErrUserExists
                         then auth.ErrUserExists else err))
            | None => None
            end
        end) /\
  (forall userID,
      snd (fst (auth.IsAdmin a ctx userID s)) =
        match snd (fst (auth.UserProvider_IsAdmin (auth.usrProvider a) ctx userID
                          (world s))) with
        | Some err =>
            Some (fmt.Errorf "Auth.IsAdmin"
                    (if errors.Is err storage.ErrUserNotFound
                     then auth.ErrInvalidAppID else err))
        | None => None
        end) /\
  (forall userID,
      snd (fst (auth.IsUserExists a ctx userID s)) =
        match snd (fst (auth.UserProvider_IsUserExists (auth.usrProvider a) ctx userID
                          (world s))) with
        | Some err =>
            Some (fmt.Errorf "Auth.IsUserExists"
                    (if errors.Is err storage.ErrUserNotFound
                     then auth.ErrInvalidAppID else err))
        | None => None
        end).
Proof.
  repeat apply conj.
  - intros email password appID e. apply Login_error_origin.
  - intros email pass e. apply Register_error_origin.
  - intros userID e He.
    destruct (IsAdmin_error_origin a ctx userID s e He) as [inner [-> [[-> _] | Hin]]];
      eexists; (split; [reflexivity |]); auto.
  - intros userID e He.
    destruct (IsUserExists_error_origin a ctx userID s e He)
      as [inner [-> [[-> _] | Hin]]];
      eexists; (split; [reflexivity |]); auto.
  - intros email pass passHash e w1 HG.
    rewrite (Register_hash_error_run a ctx email pass s passHash e w1 HG).
    split; [reflexivity |]. eexists. split; [reflexivity |]. split; reflexivity.
  - intros email password appID. apply Login_nil_error.
  - intros email pass. apply Register_nil_error.
  - intros userID. unfold IsAdmin_received.
    query_paths (IsAdmin_follows_path a ctx userID s); cbn [fst snd]; intros He;
      try discriminate. rewrite HQ. reflexivity.
  - intros userID. unfold IsUserExists_received.
    query_paths (IsUserExists_follows_path a ctx userID s); cbn [fst snd]; intros He;
      try discriminate. rewrite HQ. reflexivity.
  - intros email password appID.
    login_paths a ctx email password appID s; cbn [fst snd];
      rewrite HU; rewrite ?HIs, ?HC, ?HA, ?HS; reflexivity.
  - intros email pass.
    register_paths a ctx email pass s; cbn [fst snd];
      rewrite HG; rewrite ?HS; cbn [fst snd]; rewrite ?HIs; reflexivity.
  - intros userID.
    query_paths (IsAdmin_follows_path a ctx userID s); cbn [fst snd];
      rewrite HQ; cbn [fst snd]; rewrite ?HIs; reflexivity.
  - intros userID.
    query_paths (IsUserExists_follows_path a ctx userID s); cbn [fst snd];
      rewrite HQ; cbn [fst snd]; rewrite ?HIs; reflexivity.
Qed.

(** C8, as the code has it.  No operation brings in [ErrUserNotFound]:
    when none of the errors the stores, bcrypt and the signer return in
    a run is of that kind, the error the operation returns is not of
    that kind either.  A "user not found" of the user store becomes
    [ErrInvalidCredentials] in [Login] and [ErrInvalidAppID] in the two
    queries. *)
Theorem ErrUserNotFound_not_brought_in
    (a : auth.AuthService) (ctx : Context) (s : State) :
  (forall email password appID e,
      none_Is auth_ErrUserNotFound
        (Login_received a ctx email password appID (world s)) = true ->
      snd (fst (auth.Login a ctx email password appID s)) = Some e ->
      errors.Is e auth_ErrUserNotFound = false) /\
  (forall email pass e,
      none_Is auth_ErrUserNotFound (Register_received a ctx email pass (world s)) = true ->
      snd (fst (auth.RegisterNewUser a ctx email pass s)) = Some e ->
      errors.Is e auth_ErrUserNotFound = false) /\
  (forall userID e,
      none_Is auth_ErrUserNotFound (IsAdmin_received a ctx userID (world s)) = true ->
      snd (fst (auth.IsAdmin a ctx userID s)) = Some e ->
      errors.Is e auth_ErrUserNotFound = false) /\
  (forall userID e,
      none_Is auth_ErrUserNotFound (IsUserExists_received a ctx userID (world s)) = true ->
      snd (fst (auth.IsUserExists a ctx userID s)) = Some e ->
      errors.Is e auth_ErrUserNotFound = false) /\
  (forall email password appID,
      unknown_email a ctx email (world s) = true ->
      snd (fst (auth.Login a ctx email password appID s))
        = Some (fmt.Errorf auth.op_Login auth.ErrInvalidCredentials)) /\
  (forall userID,
      reports_not_found
        (fst (auth.UserProvider_IsAdmin (auth.usrProvider a) ctx userID (world s)))
        = true ->
      snd (fst (auth.IsAdmin a ctx userID s))
        = Some (fmt.Errorf auth.op_IsAdmin auth.ErrInvalidAppID)) /\
  (forall userID,
      reports_not_found
        (fst (auth.UserProvider_IsUserExists (auth.usrProvider a) ctx userID (world s)))
        = true ->
      snd (fst (auth.IsUserExists a ctx userID s))
        = Some (fmt.Errorf auth.op_IsUserExists auth.ErrInvalidAppID)).
Proof.
  repeat apply conj.
  - intros email password appID e Hnone He.
    destruct (Login_error_origin a ctx email password appID s e He)
      as [inner [-> [-> | Hin]]]; [reflexivity |].
    rewrite Is_Errorf. exact (none_Is_In _ _ _ Hnone Hin).
  - intros email pass e Hnone He.
    destruct (Register_error_origin a ctx email pass s e He)
      as [inner [-> [-> | Hin]]]; [reflexivity |].
    rewrite Is_Errorf. exact (none_Is_In _ _ _ Hnone Hin).
  - intros userID e Hnone He.
    destruct (IsAdmin_error_origin a ctx userID s e He)
      as [inner [-> [[-> _] | Hin]]]; [reflexivity |].
    rewrite Is_Errorf. exact (none_Is_In _ _ _ Hnone Hin).
  - intros userID e Hnone He.
    destruct (IsUserExists_error_origin a ctx userID s e He)
      as [inner [-> [[-> _] | Hin]]]; [reflexivity |].
    rewrite Is_Errorf. exact (none_Is_In _ _ _ Hnone Hin).
  - intros email password appID Hbad. unfold unknown_email in Hbad.
    login_paths a ctx email password appID s; rewrite HU in Hbad; cbn in *;
      congruence.
  - intros userID Hbad. unfold reports_not_found in Hbad.
    query_paths (IsAdmin_follows_path a ctx userID s); rewrite HQ in Hbad; cbn in *;
      congruence.
  - intros userID Hbad. unfold reports_not_found in Hbad.
    query_paths (IsUserExists_follows_path a ctx userID s); rewrite HQ in Hbad;
      cbn in *; congruence.
Qed.

(** C9, as the code has it.  [Login] and [RegisterNewUser] do not bring
    in [ErrInvalidAppID]: when no error the stores, bcrypt and the signer
    return in a run is of that kind, neither is the error returned; with
    valid credentials an application the store cannot resolve comes back
    as the store's error wrapped.  [IsAdmin] and [IsUserExists] return
    [ErrInvalidAppID] when the user store reports "user not found", and,
    unless the store's own error is of that kind, only then. *)
Theorem ErrInvalidAppID_only_from_queries
    (a : auth.AuthService) (ctx : Context) (s : State) :
  (forall email password appID e,
      none_Is auth_ErrInvalidAppID
        (Login_received a ctx email password appID (world s)) = true ->
      snd (fst (auth.Login a ctx email password appID s)) = Some e ->
      errors.Is e auth_ErrInvalidAppID = false) /\
  (forall email pass e,
      none_Is auth_ErrInvalidAppID (Register_received a ctx email pass (world s)) = true ->
      snd (fst (auth.RegisterNewUser a ctx email pass s)) = Some e ->
      errors.Is e auth_ErrInvalidAppID = false) /\
  (forall email password appID appErr,
      valid_credentials a ctx email password (world s) = true ->
      snd (fst (auth.AppProvider_App (auth.appProvider a) ctx appID
                  (after_User a ctx email (world s)))) = Some appErr ->
      snd (fst (auth.Login a ctx email password appID s))
        = Some (fmt.Errorf auth.op_Login appErr)) /\
  (forall userID,
      reports_not_found
        (fst (auth.UserProvider_IsAdmin (auth.usrProvider a) ctx userID (world s)))
        = true ->
      snd (fst (auth.IsAdmin a ctx userID s))
        = Some (fmt.Errorf auth.op_IsAdmin auth.ErrInvalidAppID)) /\
  (forall userID,
      reports_not_found
        (fst (auth.UserProvider_IsUserExists (auth.usrProvider a) ctx userID (world s)))
        = true ->
      snd (fst (auth.IsUserExists a ctx userID s))
        = Some (fmt.Errorf auth.op_IsUserExists auth.ErrInvalidAppID)) /\
  (forall userID e,
      none_Is auth_ErrInvalidAppID (IsAdmin_received a ctx userID (world s)) = true ->
      snd (fst (auth.IsAdmin a ctx userID s)) = Some e ->
      errors.Is e auth_ErrInvalidAppID = true ->
      reports_not_found
        (fst (auth.UserProvider_IsAdmin (auth.usrProvider a) ctx userID (world s)))
        = true) /\
  (forall userID e,
      none_Is auth_ErrInvalidAppID (IsUserExists_received a ctx userID (world s)) = true ->
      snd (fst (auth.IsUserExists a ctx userID s)) = Some e ->
      errors.Is e auth_ErrInvalidAppID = true ->
      reports_not_found
        (fst (auth.UserProvider_IsUserExists (auth.usrProvider a) ctx userID (world s)))
        = true).
Proof.
  repeat apply conj.
  - intros email password appID e Hnone He.
    destruct (Login_error_origin a ctx email password appID s e He)
      as [inner [-> [-> | Hin]]]; [reflexivity |].
    rewrite Is_Errorf. exact (none_Is_In _ _ _ Hnone Hin).
  - intros email pass e Hnone He.
    destruct (Register_error_origin a ctx email pass s e He)
      as [inner [-> [-> | Hin]]]; [reflexivity |].
    rewrite Is_Errorf. exact (none_Is_In _ _ _ Hnone Hin).
  - intros email password appID appErr Hok Happ.
    unfold valid_credentials, after_User in *.
    login_paths a ctx email password appID s;
      rewrite HU in *; cbn in *; rewrite ?HC in *; try discriminate;
      rewrite HA in *; cbn in *; congruence.
  - intros userID Hbad. unfold reports_not_found in Hbad.
    query_paths (IsAdmin_follows_path a ctx userID s); rewrite HQ in Hbad; cbn in *;
      congruence.
  - intros userID Hbad. unfold reports_not_found in Hbad.
    query_paths (IsUserExists_follows_path a ctx userID s); rewrite HQ in Hbad;
      cbn in *; congruence.
  - intros userID e Hnone He HIs.
    destruct (IsAdmin_error_origin a ctx userID s e He)
      as [inner [-> [[_ Hnf] | Hin]]]; [exact Hnf |].
    rewrite Is_Errorf, (none_Is_In _ _ _ Hnone Hin) in HIs. discriminate.
  - intros userID e Hnone He HIs.
    destruct (IsUserExists_error_origin a ctx userID s e He)
      as [inner [-> [[_ Hnf] | Hin]]]; [exact Hnf |].
    rewrite Is_Errorf, (none_Is_In _ _ _ Hnone Hin) in HIs. discriminate.
Qed.

End Claims.

(** ** The in-memory store keeps emails unique *)

Lemma find_snoc {A} (p : A -> bool) (l : list A) (x : A) :
  find p l = None -> p x = true -> find p (l ++ [x]) = Some x.
Proof.
  induction l as [| y l IH]; cbn; intros Hnone Hx.
  - rewrite Hx. reflexivity.
  - destruct (p y); [discriminate | auto].
Qed.

Lemma mem_unique_emails : @unique_emails mem.env mem.saver mem.taken.
Proof.
  split.
  - intros ctx email passHash db id db'. cbn. unfold mem.taken.
    destruct (find (mem.by_email email) (mem.users db)) eqn:Hfind; [discriminate |].
    intros Heq. injection Heq as _ <-. cbn. eexists.
    apply find_snoc; [exact Hfind |]. unfold mem.by_email. cbn.
    apply bool_decide_eq_true. reflexivity.
  - intros ctx email passHash db [r Hr]. cbn. rewrite Hr. cbn.
    eexists. split; reflexivity.
  - intros password cost db email Ht. cbn. unfold mem.toy_generate.
    destruct (bool_decide _); exact Ht.
Qed.

(** ** The theorems at concrete inputs *)

(** An unknown email and a wrong password, against the store [mem.db1]. *)
Lemma Login_invalid_credentials_witness :
  fst (auth.Login mem.service tt "b@x.com" "pw1" 42 (mem.start mem.db1))
    = ("", Some (fmt.Errorf auth.op_Login auth.ErrInvalidCredentials)) /\
  fst (auth.Login mem.service tt "a@x.com" "wrong" 42 (mem.start mem.db1))
    = ("", Some (fmt.Errorf auth.op_Login auth.ErrInvalidCredentials)).
Proof.
  split.
  - apply (@Login_invalid_credentials mem.env mem.service tt "b@x.com" "pw1" 42
             (mem.start mem.db1)).
    left. reflexivity.
  - apply (@Login_invalid_credentials mem.env mem.service tt "a@x.com" "wrong" 42
             (mem.start mem.db1)).
    right. reflexivity.
Defined.

(** The login of the specification's scenario: the claims of the token
    signed for user 1 and application 42. *)
Lemma issued_token_claims_witness :
  exists user w1 app w2,
    auth.UserProvider_User mem.provider tt "a@x.com" mem.db1 = ((user, None), w1) /\
    auth.AppProvider_App mem.app_provider tt 42 w1 = ((app, None), w2) /\
    let exp := @expiry mem.env w2 3600000000000 in
    let key := list_byte_of_string (models.App_Secret app) in
    carries (built_token user app exp) user app exp /\
    mem.toy_sign (built_token user app exp) key = ("HS256.secret-42", None) /\
    In (EvSignedString (built_token user app exp) key)
       (trace (snd (auth.Login mem.service tt "a@x.com" "pw1" 42 (mem.start mem.db1)))).
Proof.
  apply (proj2 (@issued_token_claims mem.env) mem.service tt "a@x.com" "pw1" 42
           (mem.start mem.db1) "HS256.secret-42").
  reflexivity.
Defined.

(** Registering ["c@x.com"] twice against [mem.db1]. *)
Lemma RegisterNewUser_outcome_witness :
  fst (auth.RegisterNewUser mem.service tt "c@x.com" "pw2" (mem.start mem.db1))
    = (2, None) /\
  fst (auth.RegisterNewUser mem.service tt "c@x.com" "other"
         (snd (auth.RegisterNewUser mem.service tt "c@x.com" "pw2" (mem.start mem.db1))))
    = (0, Some (fmt.Errorf auth.op_RegisterNewUser auth.ErrUserExists)).
Proof.
  eapply (proj2 (proj2 (@RegisterNewUser_outcome mem.env mem.service tt "c@x.com" "pw2"
                          (mem.start mem.db1) _ _ eq_refl))
            mem.taken _ _ "other" _ _ mem_unique_emails);
    reflexivity.
Defined.

(** User 9 does not exist in [mem.db1]. *)
Lemma queries_not_found_same_kind_witness :
  fst (auth.IsAdmin mem.service tt 9 (mem.start mem.db1))
    = (false, Some (fmt.Errorf auth.op_IsAdmin auth.ErrInvalidAppID)) /\
  fst (auth.IsUserExists mem.service tt 9 (mem.start mem.db1))
    = (false, Some (fmt.Errorf auth.op_IsUserExists auth.ErrInvalidAppID)).
Proof.
  destruct (@queries_not_found_same_kind mem.env mem.service tt 9
              (mem.start mem.db1) (mem.start mem.db1) eq_refl eq_refl)
    as [H1 [H2 _]].
  split; [exact H1 | exact H2].
Defined.

(** A wrong password, asked for application 42 of [mem.service] and for
    application 7 of a service whose application store knows none. *)
Lemma Login_rejects_before_app_lookup_witness :
  auth.Login mem.service tt "a@x.com" "wrong" 42 (mem.start mem.db1)
    = auth.Login echo.no_apps tt "a@x.com" "wrong" 7 (mem.start mem.db1) /\
  fst (auth.Login mem.service tt "a@x.com" "wrong" 42 (mem.start mem.db1))
    = ("", Some (fmt.Errorf auth.op_Login auth.ErrInvalidCredentials)) /\
  exists evs,
    appended (mem.start mem.db1)
      (snd (auth.Login mem.service tt "a@x.com" "wrong" 42 (mem.start mem.db1))) evs /\
    forallb (fun e => negb (is_EvApp e)) evs = true.
Proof.
  apply (@Login_rejects_before_app_lookup mem.env mem.service echo.no_apps tt
           "a@x.com" "wrong" 42 7 (mem.start mem.db1)); reflexivity.
Defined.

(** Valid credentials and application 7, which [mem.db1] does not have. *)
Lemma Login_app_error_is_wrapped_witness :
  fst (auth.Login mem.service tt "a@x.com" "pw1" 7 (mem.start mem.db1))
    = ("", Some (fmt.Errorf "Auth.Login"
                   (fmt.Errorf "mem.App" (errorOther "app not found")))).
Proof.
  apply (@Login_app_error_is_wrapped mem.env mem.service tt "a@x.com" "pw1" 7
           (mem.start mem.db1)); reflexivity.
Defined.

(** A password of 80 bytes, which the stand-in for bcrypt refuses. *)
Lemma failures_are_wrapped_and_returned_witness :
  let pass :=
    "0123456789012345678901234567890123456789012345678901234567890123456789abcdefghij" in
  fst (auth.RegisterNewUser mem.service tt "c@x.com" pass (mem.start mem.db1))
    = (0, Some (fmt.Errorf "auth.RegisterNewUser" (errorOther "password too long"))) /\
  exists evs,
    appended (mem.start mem.db1)
      (snd (auth.RegisterNewUser mem.service tt "c@x.com" pass (mem.start mem.db1))) evs /\
    List.filter is_EvGenerate evs = [ev_hash pass] /\
    List.filter is_EvSaveUser evs = [].
Proof.
  intros pass.
  apply (proj1 (proj2 (proj2 (proj2 (proj2
           (@failures_are_wrapped_and_returned mem.env mem.service tt
              (mem.start mem.db1))))))
           "c@x.com" pass [] (errorOther "password too long") mem.db1).
  reflexivity.
Defined.

(** An unknown email: the store's error is [storage.ErrUserNotFound]
    wrapped, and the error [Login] returns is not of kind
    [ErrUserNotFound]. *)
Lemma ErrUserNotFound_not_brought_in_witness :
  errors.Is (fmt.Errorf auth.op_Login auth.ErrInvalidCredentials) auth_ErrUserNotFound
    = false.
Proof.
  apply (proj1 (@ErrUserNotFound_not_brought_in mem.env mem.service tt
                  (mem.start mem.db1))
           "b@x.com" "pw1" 42); reflexivity.
Defined.

(** Valid credentials and an application the store does not have: the
    error [Login] returns is not of kind [ErrInvalidAppID]. *)
Lemma ErrInvalidAppID_only_from_queries_witness :
  errors.Is (fmt.Errorf auth.op_Login
               (fmt.Errorf "mem.App" (errorOther "app not found")))
    auth_ErrInvalidAppID = false.
Proof.
  apply (proj1 (@ErrInvalidAppID_only_from_queries mem.env mem.service tt
                  (mem.start mem.db1))
           "a@x.com" "pw1" 7); reflexivity.
Defined.

(** A wrong password: the token returned next to the error is empty. *)
Lemma error_comes_with_zero_value_witness :
  fst (fst (auth.Login mem.service tt "a@x.com" "wrong" 42 (mem.start mem.db1))) = "".
Proof.
  apply (proj1 (@error_comes_with_zero_value mem.env mem.service tt
                  (mem.start mem.db1))
           "a@x.com" "wrong" 42).
  discriminate.
Defined.

(** ** The service passes on what a store returns *)

(** C8, as stated, fails: a user store that answers with
    [auth.ErrUserNotFound] makes [Login] return an error of that kind. *)
Lemma Login_returns_ErrUserNotFound :
  snd (fst (auth.Login echo.no_users tt "a@x.com" "pw1" 42 (mem.start mem.db1)))
    = Some (fmt.Errorf auth.op_Login auth.ErrUserNotFound) /\
  errors.Is (fmt.Errorf auth.op_Login auth.ErrUserNotFound) auth_ErrUserNotFound = true.
Proof. split; reflexivity. Qed.

(** C9, as stated, fails: an application store that answers with
    [auth.ErrInvalidAppID] makes [Login] return an error of that kind. *)
Lemma Login_returns_ErrInvalidAppID :
  snd (fst (auth.Login echo.no_apps tt "a@x.com" "pw1" 42 (mem.start mem.db1)))
    = Some (fmt.Errorf auth.op_Login auth.ErrInvalidAppID) /\
  errors.Is (fmt.Errorf auth.op_Login auth.ErrInvalidAppID) auth_ErrInvalidAppID = true.
Proof. split; reflexivity. Qed.

(** C5, as stated, fails: against application 7, which the store does not
    have, the right password gets the store's error and a wrong password
    gets [ErrInvalidCredentials]; the two results differ, so the login
    tells whether the credentials were correct. *)
Lemma Login_missing_app_reveals_credentials :
  fst (auth.Login mem.service tt "a@x.com" "pw1" 7 (mem.start mem.db1))
    = ("", Some (fmt.Errorf "Auth.Login"
                   (fmt.Errorf "mem.App" (errorOther "app not found")))) /\
  fst (auth.Login mem.service tt "a@x.com" "wrong" 7 (mem.start mem.db1))
    = ("", Some (fmt.Errorf "Auth.Login" auth.ErrInvalidCredentials)) /\
  errors.Is (fmt.Errorf "Auth.Login"
               (fmt.Errorf "mem.App" (errorOther "app not found")))
    auth_ErrInvalidCredentials = false /\
  errors.Is (fmt.Errorf "Auth.Login" auth.ErrInvalidCredentials)
    auth_ErrInvalidCredentials = true /\
  fst (auth.Login mem.service tt "a@x.com" "pw1" 7 (mem.start mem.db1))
    <> fst (auth.Login mem.service tt "a@x.com" "wrong" 7 (mem.start mem.db1)).
Proof. repeat split. discriminate. Qed.

(** * Further properties of the service *)

Lemma added_appended `{Env} (s s' : State) (evs : list event) :
  trace s' = (trace s ++ evs)%list -> added s s' = evs.
Proof. unfold added. intros ->. apply drop_app_length. Qed.

Ltac login_cases a ctx email password appID s :=
  destruct (Login_follows_path a ctx email password appID s)
    as [user err w1 HU HIs | user err w1 HU HIs | user w1 err HU HC
       | user w1 app err w2 HU HC HA | user w1 app w2 str err HU HC HA HS
       | user w1 app w2 str HU HC HA HS].

Ltac register_cases a ctx email pass s :=
  destruct (Register_follows_path a ctx email pass s)
    as [passHash' err' w1' HG | passHash' w1' id' err' w2' HG HS HIs
       | passHash' w1' id' err' w2' HG HS HIs | passHash' w1' id' w2' HG HS].

Ltac query_cases P :=
  destruct P as [answer err w1 HQ HIs | answer err w1 HQ HIs | answer w1 HQ].

(** Rewrite [added s s'] to the events of the path at hand. *)
Ltac events_of_path :=
  cbn [fst snd];
  erewrite added_appended by (cbn [trace]; rewrite <- ?app_assoc; reflexivity).

Section MoreRuns.
Context `{Env}.

(** [Login] calls its collaborators in one order, each at most once: the
    user store, bcrypt, the application store, the clock, the signer.  It
    always asks the user store and goes on to the next exactly when the
    call before has returned no error: the calls of a run are those up to
    the first call that fails. *)
Theorem Login_call_order
    (a : auth.AuthService) (ctx : Context) (email password : string) (appID : Z)
    (s : State) :
  calls (added s (snd (auth.Login a ctx email password appID s))) =
    match auth.UserProvider_User (auth.usrProvider a) ctx email (world s) with
    | ((_, Some _), _) => [KUser]
    | ((user, None), w1) =>
        match bcrypt_CompareHashAndPassword (models.User_PassHash user)
                (list_byte_of_string password) with
        | Some _ => [KUser; KCompare]
        | None =>
            match snd (fst (auth.AppProvider_App (auth.appProvider a) ctx appID w1)) with
            | Some _ => [KUser; KCompare; KApp]
            | None => [KUser; KCompare; KApp; KNow; KSign]
            end
        end
    end.
Proof.
  login_cases a ctx email password appID s; events_of_path;
    rewrite HU; rewrite ?HC, ?HA; reflexivity.
Qed.

(** [RegisterNewUser] hashes once and saves at most once, after the
    hash; a query makes its own store call and no other.  None of the
    three reads a user by email, resolves an application or signs. *)
Theorem Register_and_query_calls
    (a : auth.AuthService) (ctx : Context) (s : State) :
  (forall email pass,
      let cs := calls (added s (snd (auth.RegisterNewUser a ctx email pass s))) in
      cs = [KGenerate] \/ cs = [KGenerate; KSaveUser]) /\
  (forall userID,
      calls (added s (snd (auth.IsAdmin a ctx userID s))) = [KIsAdmin]) /\
  (forall userID,
      calls (added s (snd (auth.IsUserExists a ctx userID s))) = [KIsUserExists]).
Proof.
  repeat apply conj.
  - intros email pass. register_cases a ctx email pass s; events_of_path; cbn; auto.
  - intros userID. query_cases (IsAdmin_follows_path a ctx userID s);
      events_of_path; reflexivity.
  - intros userID. query_cases (IsUserExists_follows_path a ctx userID s);
      events_of_path; reflexivity.
Qed.

(** What [RegisterNewUser] hands to the store is the email as given and
    the hash bcrypt returned for [[]byte(pass)] at [bcrypt.DefaultCost],
    which is 10; when hashing fails nothing is handed to the store. *)
Theorem Register_saves_the_hash
    (a : auth.AuthService) (ctx : Context) (email pass : string) (s : State) :
  let evs := added s (snd (auth.RegisterNewUser a ctx email pass s)) in
  List.filter is_EvGenerate evs
    = [EvGenerateFromPassword (list_byte_of_string pass) 10] /\
  List.filter is_EvSaveUser evs
    = match bcrypt_GenerateFromPassword (list_byte_of_string pass) 10 (world s) with
      | ((passHash, None), _) => [EvSaveUser email passHash]
      | ((_, Some _), _) => []
      end.
Proof.
  change 10 with bcrypt.DefaultCost.
  register_cases a ctx email pass s; events_of_path; rewrite HG; split; reflexivity.
Qed.


(** A failure of the user lookup other than "user not found" ends
    [Login] at once: the store's error comes back wrapped, of the kinds it
    was of, and neither bcrypt nor the application store nor the signer
    is called. *)
Theorem Login_lookup_failure_passed_on
    (a : auth.AuthService) (ctx : Context) (email password : string) (appID : Z)
    (s : State) (storeErr : error) :
  snd (fst (auth.UserProvider_User (auth.usrProvider a) ctx email (world s)))
    = Some storeErr ->
  errors.Is storeErr storage.ErrUserNotFound = false ->
  fst (auth.Login a ctx email password appID s)
    = ("", Some (fmt.Errorf "Auth.Login" storeErr)) /\
  (forall v, errors.Is (fmt.Errorf "Auth.Login" storeErr) v = errors.Is storeErr v) /\
  calls (added s (snd (auth.Login a ctx email password appID s))) = [KUser].
Proof.
  intros Hlookup Hkind.
  login_cases a ctx email password appID s; events_of_path;
    rewrite HU in Hlookup; cbn in Hlookup; try discriminate;
    injection Hlookup as ->; try congruence.
  repeat split.
Qed.

(** A failure of [SaveUser] other than "user exists" comes back from
    [RegisterNewUser] wrapped, of the kinds it was of, next to id 0. *)
Theorem Register_save_failure_passed_on
    (a : auth.AuthService) (ctx : Context) (email pass : string) (s : State)
    (passHash : list byte) (w1 : World) (storeErr : error) :
  bcrypt_GenerateFromPassword (list_byte_of_string pass) bcrypt.DefaultCost (world s)
    = ((passHash, None), w1) ->
  snd (fst (auth.SaveUser (auth.usrSaver a) ctx email passHash w1)) = Some storeErr ->
  errors.Is storeErr storage.ErrUserExists = false ->
  fst (auth.RegisterNewUser a ctx email pass s)
    = (0, Some (fmt.Errorf "auth.RegisterNewUser" storeErr)) /\
  (forall v,
      errors.Is (fmt.Errorf "auth.RegisterNewUser" storeErr) v = errors.Is storeErr v).
Proof.
  intros HG0 HS0 Hkind. split; [| reflexivity].
  register_cases a ctx email pass s; cbn [fst snd];
    rewrite HG0 in HG; try congruence; injection HG as <- <-;
    rewrite HS in HS0; cbn in HS0; try discriminate;
    injection HS0 as ->; try reflexivity; congruence.
Qed.

(** Unless a store or the signer itself returns an error of the kind
    [ErrInvalidCredentials], [Login] fails with that kind exactly when the
    email is unknown or the password is wrong. *)
Theorem Login_InvalidCredentials_iff
    (a : auth.AuthService) (ctx : Context) (email password : string) (appID : Z)
    (s : State) :
  none_Is auth_ErrInvalidCredentials
    (Login_received a ctx email password appID (world s)) = true ->
  ((exists e, snd (fst (auth.Login a ctx email password appID s)) = Some e /\
              errors.Is e auth_ErrInvalidCredentials = true)
   <-> invalid_credentials a ctx email password (world s) = true).
Proof.
  intros Hnone. split.
  - intros [e [He HIs']]. revert Hnone He.
    unfold Login_received, invalid_credentials, unknown_email, wrong_password, none_Is.
    login_cases a ctx email password appID s; cbn [fst snd];
      rewrite HU; cbn [fst snd]; rewrite ?HC, ?HA, ?HS; cbn [fst snd];
      intros Hnone He; try discriminate; injection He as <-;
      rewrite ?HIs; try reflexivity;
      cbn in Hnone; rewrite Is_Errorf in HIs'; rewrite HIs' in Hnone; discriminate.
  - intros Hbad. eexists.
    rewrite (Login_rejected_run a ctx email password appID s Hbad).
    split; reflexivity.
Qed.

(** Unless bcrypt or the store itself returns an error of the kind
    [ErrUserExists], [RegisterNewUser] fails with that kind exactly when
    the hash was generated and the store reported that the user exists. *)
Theorem Register_UserExists_iff
    (a : auth.AuthService) (ctx : Context) (email pass : string) (s : State) :
  none_Is auth_ErrUserExists (Register_received a ctx email pass (world s)) = true ->
  ((exists e, snd (fst (auth.RegisterNewUser a ctx email pass s)) = Some e /\
              errors.Is e auth_ErrUserExists = true)
   <-> store_reports_exists a ctx email pass (world s) = true).
Proof.
  unfold Register_received, store_reports_exists, none_Is.
  register_cases a ctx email pass s; cbn [fst snd];
    rewrite HG; rewrite ?HS; cbn [fst snd]; intros Hnone;
    (split; [intros [e [He HIs']] | intros Hex]);
    try discriminate; try congruence;
    try (eexists; split; reflexivity);
    injection He as <-; rewrite Is_Errorf in HIs'; cbn in Hnone;
    rewrite HIs' in Hnone; discriminate.
Qed.

(** [Login] returns a token and no error exactly when the credentials
    are valid and neither the application store nor the signer fails. *)
Theorem Login_succeeds_iff
    (a : auth.AuthService) (ctx : Context) (email password : string) (appID : Z)
    (s : State) :
  snd (fst (auth.Login a ctx email password appID s)) = None <->
  valid_credentials a ctx email password (world s) = true /\
  Login_received a ctx email password appID (world s) = [].
Proof.
  unfold valid_credentials, Login_received.
  login_cases a ctx email password appID s; cbn [fst snd];
    rewrite HU; cbn [fst snd]; rewrite ?HC, ?HA, ?HS; cbn [fst snd];
    split; try discriminate; try (intros [? ?]; discriminate); auto.
Qed.

(** With a bcrypt whose hashes verify and a store that finds what it has
    saved, a login right after a successful registration, with the same
    email and password, is not rejected: what it returns is decided by
    the application lookup and the signer, and the token signed is the one
    for the id the store assigned and the email registered. *)
Theorem register_then_login
    (a : auth.AuthService) (ctx : Context) (email pass : string) (appID : Z)
    (s : State) (passHash : list byte) (w1 : World) (id : Z) (w2 : World) :
  hashes_verify ->
  saved_is_found (auth.usrSaver a) (auth.usrProvider a) ->
  bcrypt_GenerateFromPassword (list_byte_of_string pass) bcrypt.DefaultCost (world s)
    = ((passHash, None), w1) ->
  auth.SaveUser (auth.usrSaver a) ctx email passHash w1 = ((id, None), w2) ->
  let s1 := snd (auth.RegisterNewUser a ctx email pass s) in
  let user := models.mkUser id email passHash in
  match auth.AppProvider_App (auth.appProvider a) ctx appID (after_User a ctx email w2) with
  | ((_, Some appErr), _) =>
      fst (auth.Login a ctx email pass appID s1)
        = ("", Some (fmt.Errorf "Auth.Login" appErr))
  | ((app, None), w3) =>
      match jwt_SignedString (built_token user app (expiry w3 (auth.tokenTTL a)))
              (list_byte_of_string (models.App_Secret app)) with
      | (_, Some signErr) =>
          fst (auth.Login a ctx email pass appID s1)
            = ("", Some (fmt.Errorf "Auth.Login" signErr))
      | (token, None) => fst (auth.Login a ctx email pass appID s1) = (token, None)
      end
  end.
Proof.
  intros Hverify Hfound HG0 HS0 s1 registered.
  assert (Hw : world s1 = w2).
  { unfold s1. register_cases a ctx email pass s; cbn [fst snd world];
      rewrite HG0 in HG; try congruence; injection HG as <- <-;
      rewrite HS0 in HS; congruence. }
  pose proof (Hfound ctx email passHash w1 id w2 HS0) as Hu.
  pose proof (Hverify _ _ _ _ _ HG0) as Hc.
  unfold after_User.
  destruct (Login_follows_path a ctx email pass appID s1)
    as [u e x1 HU HIs | u e x1 HU HIs | u x1 e HU HC
       | u x1 ap e x2 HU HC HA | u x1 ap x2 str e HU HC HA HS
       | u x1 ap x2 str HU HC HA HS];
    cbn [fst snd]; rewrite Hw in HU; rewrite HU in *; cbn [fst snd] in *;
    try discriminate; injection Hu as ->; unfold registered in *;
    cbn [models.User_PassHash] in *; rewrite ?Hc in *; try discriminate;
    rewrite HA; rewrite ?HS; reflexivity.
Qed.

(** The token [jwt.NewToken] hands to the signer is made of the user's id
    and email, the application's id and the expiry, and of nothing else.
    For two users and two applications that agree on these, [NewToken]
    signs the same token, whatever their password hashes and secrets; the
    secret is the key and only that.  And when two calls of [NewToken]
    sign the same token, they agree on id, email, application id and
    expiry. *)
Theorem token_body_depends_on_the_claims_only :
  (forall user user' app app' duration s,
      models.User_ID user = models.User_ID user' ->
      models.User_Email user = models.User_Email user' ->
      models.App_ID app = models.App_ID app' ->
      exists t,
        added s (snd (jwt.NewToken user app duration s))
          = [EvNow; EvSignedString t (list_byte_of_string (models.App_Secret app))] /\
        added s (snd (jwt.NewToken user' app' duration s))
          = [EvNow; EvSignedString t (list_byte_of_string (models.App_Secret app'))]) /\
  (forall user user' app app' duration duration' s s' t key key',
      In (EvSignedString t key) (added s (snd (jwt.NewToken user app duration s))) ->
      In (EvSignedString t key') (added s' (snd (jwt.NewToken user' app' duration' s'))) ->
      models.User_ID user = models.User_ID user' /\
      models.User_Email user = models.User_Email user' /\
      models.App_ID app = models.App_ID app' /\
      expiry (world s) duration = expiry (world s') duration').
Proof.
  assert (Hadded : forall u ap d st,
      added st (snd (jwt.NewToken u ap d st))
        = [EvNow;
           EvSignedString (built_token u ap (expiry (world st) d))
             (list_byte_of_string (models.App_Secret ap))]).
  { intros u ap d st. rewrite NewToken_run. apply added_appended. reflexivity. }
  split.
  - intros user user' app app' duration s Hid Hemail Happ.
    exists (built_token user app (expiry (world s) duration)).
    rewrite !Hadded. unfold built_token. rewrite Hid, Hemail, Happ.
    split; reflexivity.
  - intros user user' app app' duration duration' s s' t key key'.
    rewrite !Hadded. cbn [In].
    destruct (built_token_carries user app (expiry (world s) duration))
      as (_ & _ & Hu & He & Ha & Hx).
    destruct (built_token_carries user' app' (expiry (world s') duration'))
      as (_ & _ & Hu' & He' & Ha' & Hx').
    remember (built_token user app (expiry (world s) duration)) as t1 eqn:Ht1.
    remember (built_token user' app' (expiry (world s') duration')) as t2 eqn:Ht2.
    intros [Hin | [Hin | []]] [Hin' | [Hin' | []]]; try discriminate.
    injection Hin as Heq1 _. injection Hin' as Heq2 _.
    rewrite Heq1 in Hu, He, Ha, Hx. rewrite Heq2 in Hu', He', Ha', Hx'.
    rewrite Hu' in Hu. rewrite He' in He. rewrite Ha' in Ha. rewrite Hx' in Hx.
    repeat split; congruence.
Qed.

(** A query answers [true] exactly when the store has answered [true]
    without an error: an error of the store never turns into "is admin"
    or "exists". *)
Theorem queries_answer_true_iff
    (a : auth.AuthService) (ctx : Context) (userID : Z) (s : State) :
  (fst (fst (auth.IsAdmin a ctx userID s)) = true <->
   fst (auth.UserProvider_IsAdmin (auth.usrProvider a) ctx userID (world s))
     = (true, None)) /\
  (fst (fst (auth.IsUserExists a ctx userID s)) = true <->
   fst (auth.UserProvider_IsUserExists (auth.usrProvider a) ctx userID (world s))
     = (true, None)).
Proof.
  split.
  - query_cases (IsAdmin_follows_path a ctx userID s); cbn [fst snd];
      rewrite HQ; cbn [fst]; split; intros Heq; congruence.
  - query_cases (IsUserExists_follows_path a ctx userID s); cbn [fst snd];
      rewrite HQ; cbn [fst]; split; intros Heq; congruence.
Qed.

End MoreRuns.

(** * The configuration loader *)

Section ConfigFacts.
Context `{config.Host}.

(** The flag [-config] decides the path when it is not empty, the
    variable [CONFIG_PATH] otherwise.  [MustLoad] returns a configuration
    exactly when that path is not empty, [os.Stat] does not report it
    missing and [cleanenv.ReadConfig] reads it without error; the
    configuration is then the one read.  With an empty path it panics
    before it looks at a file. *)
Theorem MustLoad_returns_iff :
  (config.flag_config <> "" -> config.fetchConfigPath = config.flag_config) /\
  (config.flag_config = "" ->
   config.fetchConfigPath = config.os_Getenv "CONFIG_PATH") /\
  (config.fetchConfigPath = "" ->
   config.MustLoad = panics (panic_string "config path is empty")) /\
  (forall cfg,
      config.MustLoad = returns cfg <->
      config.fetchConfigPath <> "" /\
      config.os_Stat_IsNotExist config.fetchConfigPath = false /\
      config.cleanenv_ReadConfig config.fetchConfigPath = (cfg, None)).
Proof.
  repeat apply conj.
  - intros Hflag. unfold config.fetchConfigPath.
    rewrite bool_decide_eq_false_2 by exact Hflag. reflexivity.
  - intros Hflag. unfold config.fetchConfigPath.
    rewrite bool_decide_eq_true_2 by exact Hflag. reflexivity.
  - intros Hpath. unfold config.MustLoad.
    rewrite bool_decide_eq_true_2 by exact Hpath. reflexivity.
  - intros cfg. unfold config.MustLoad.
    destruct (bool_decide (config.fetchConfigPath = "")) eqn:Hempty.
    + apply bool_decide_eq_true in Hempty. split; [discriminate |].
      intros [Hne _]. contradiction.
    + apply bool_decide_eq_false in Hempty.
      destruct (config.os_Stat_IsNotExist config.fetchConfigPath).
      * split; [discriminate | intros (_ & Hstat & _); discriminate].
      * destruct (config.cleanenv_ReadConfig config.fetchConfigPath) as [read [err|]].
        -- split; [discriminate | intros (_ & _ & Hread); discriminate].
        -- split.
           ++ intros Hret. injection Hret as ->. auto.
           ++ intros (_ & _ & Hread). injection Hread as ->. reflexivity.
Qed.

(** On a path that is not empty [MustLoad] does what [MustLoadPath] does
    on that path whenever the file is missing or is read without error.
    When the file is there and cannot be read, both panic with the text
    of the error of [cleanenv.ReadConfig], [MustLoad] after "failed to
    read config: " and [MustLoadPath] after "cannot read config: ". *)
Theorem MustLoad_agrees_with_MustLoadPath :
  config.fetchConfigPath <> "" ->
  (config.os_Stat_IsNotExist config.fetchConfigPath = true \/
   snd (config.cleanenv_ReadConfig config.fetchConfigPath) = None ->
   config.MustLoad = config.MustLoadPath config.fetchConfigPath) /\
  (forall err,
      config.os_Stat_IsNotExist config.fetchConfigPath = false ->
      snd (config.cleanenv_ReadConfig config.fetchConfigPath) = Some err ->
      config.MustLoad = panics (panic_string_error "failed to read config: " err) /\
      config.MustLoadPath config.fetchConfigPath
        = panics (panic_string_error "cannot read config: " err)).
Proof.
  intros Hne. unfold config.MustLoad, config.MustLoadPath.
  rewrite bool_decide_eq_false_2 by exact Hne.
  destruct (config.os_Stat_IsNotExist config.fetchConfigPath).
  - split; [reflexivity | discriminate].
  - destruct (config.cleanenv_ReadConfig config.fetchConfigPath) as [read [err|]];
      cbn [snd]; split.
    + intros [Hstat | Hread]; discriminate.
    + intros e _ He. injection He as ->. split; reflexivity.
    + reflexivity.
    + intros e _ He. discriminate.
Qed.

End ConfigFacts.

(** * The logger of the command *)

(** [setupLogger] returns no logger (nil) for every environment other
    than "local", "dev" and "prod"; the logger it returns handles debug
    records except in "prod". *)
Theorem setupLogger_nil_iff (env : string) :
  (cmd_sso.setupLogger env = None <->
   env <> "local" /\ env <> "dev" /\ env <> "prod") /\
  (forall l, cmd_sso.setupLogger env = Some l ->
             (cmd_sso.Enabled l slog.LevelDebug = true <-> env <> "prod")).
Proof.
  unfold cmd_sso.setupLogger, cmd_sso.envLocal, cmd_sso.envDev, cmd_sso.envProd.
  repeat case_bool_decide; subst; split;
    try (split; [discriminate | intros (? & ? & ?); congruence]);
    try (split; [auto | reflexivity]);
    intros l Hl; try discriminate; injection Hl as <-;
    (split; [intros; discriminate || congruence | intros Hne; try reflexivity; congruence]).
Qed.

Section LoggerFacts.
Context `{Env}.

(** From a membership in an explicit list of events to the level of the
    record. *)
Ltac level_of_record :=
  cbn [In Datatypes.app];
  let Hin := fresh "Hin" in
  intros Hin; repeat (destruct Hin as [Hin | Hin]; try discriminate);
  try contradiction; injection Hin as <- _ _; discriminate.

(** No record of the four operations is a debug record. *)
Lemma service_records_not_debug
    (a : auth.AuthService) (ctx : Context) (s : State) (level : slog.Level)
    (msg : string) (attrs : list slog.Attr) :
  (forall email password appID,
      In (EvLog level msg attrs) (added s (snd (auth.Login a ctx email password appID s))) ->
      level <> slog.LevelDebug) /\
  (forall email pass,
      In (EvLog level msg attrs) (added s (snd (auth.RegisterNewUser a ctx email pass s))) ->
      level <> slog.LevelDebug) /\
  (forall userID,
      In (EvLog level msg attrs) (added s (snd (auth.IsAdmin a ctx userID s))) ->
      level <> slog.LevelDebug) /\
  (forall userID,
      In (EvLog level msg attrs) (added s (snd (auth.IsUserExists a ctx userID s))) ->
      level <> slog.LevelDebug).
Proof.
  repeat apply conj.
  - intros email password appID.
    login_cases a ctx email password appID s; events_of_path;
      unfold signing_events, ev_attempt, ev_err, ev_compare; level_of_record.
  - intros email pass.
    register_cases a ctx email pass s; events_of_path;
      unfold ev_hash; level_of_record.
  - intros userID. query_cases (IsAdmin_follows_path a ctx userID s);
      events_of_path; level_of_record.
  - intros userID. query_cases (IsUserExists_follows_path a ctx userID s);
      events_of_path; level_of_record.
Qed.

Lemma setupLogger_handles_from_Info (env : string) (l : cmd_sso.Logger)
    (level : slog.Level) :
  cmd_sso.setupLogger env = Some l ->
  level <> slog.LevelDebug ->
  cmd_sso.Enabled l level = true.
Proof.
  unfold cmd_sso.setupLogger. intros Hl Hlevel.
  repeat case_bool_decide; try discriminate; injection Hl as <-;
    destruct level; try reflexivity; contradiction.
Qed.

(** Whatever logger [setupLogger] returns, it handles every record the
    four operations of the service write: none of them is dropped for its
    level, in "prod" either. *)
Theorem service_records_pass_the_logger
    (env : string) (l : cmd_sso.Logger)
    (a : auth.AuthService) (ctx : Context) (s : State) :
  cmd_sso.setupLogger env = Some l ->
  (forall email password appID level msg attrs,
      In (EvLog level msg attrs) (added s (snd (auth.Login a ctx email password appID s))) ->
      cmd_sso.Enabled l level = true) /\
  (forall email pass level msg attrs,
      In (EvLog level msg attrs) (added s (snd (auth.RegisterNewUser a ctx email pass s))) ->
      cmd_sso.Enabled l level = true) /\
  (forall userID level msg attrs,
      In (EvLog level msg attrs) (added s (snd (auth.IsAdmin a ctx userID s))) ->
      cmd_sso.Enabled l level = true) /\
  (forall userID level msg attrs,
      In (EvLog level msg attrs) (added s (snd (auth.IsUserExists a ctx userID s))) ->
      cmd_sso.Enabled l level = true).
Proof.
  intros Hl. repeat apply conj.
  - intros email password appID level msg attrs Hin.
    apply (setupLogger_handles_from_Info env l level Hl).
    exact (proj1 (service_records_not_debug a ctx s level msg attrs) _ _ _ Hin).
  - intros email pass level msg attrs Hin.
    apply (setupLogger_handles_from_Info env l level Hl).
    exact (proj1 (proj2 (service_records_not_debug a ctx s level msg attrs)) _ _ Hin).
  - intros userID level msg attrs Hin.
    apply (setupLogger_handles_from_Info env l level Hl).
    exact (proj1 (proj2 (proj2 (service_records_not_debug a ctx s level msg attrs))) _ Hin).
  - intros userID level msg attrs Hin.
    apply (setupLogger_handles_from_Info env l level Hl).
    exact (proj2 (proj2 (proj2 (service_records_not_debug a ctx s level msg attrs))) _ Hin).
Qed.

End LoggerFacts.

(** * The gRPC application *)

Section GrpcFacts.
Context `{grpcapp.Net}.

(** [Run], in full. *)
Lemma Run_run (a : grpcapp.App) (s : State) :
  grpcapp.Run a s =
    match grpcapp.net_Listen "tcp" (grpcapp.address (grpcapp.port a)) (world s) with
    | ((_, Some err), w1) =>
        (Some (fmt.Errorf "grpcapp.Run" err), {| world := w1; trace := trace s |})
    | ((l, None), w1) =>
        let running :=
          EvLog slog.LevelInfo "gRPC server is running"
            (slog.attrs (grpcapp.log a) ++
             [slog.String_ "op" "grpcapp.Run"; slog.Int64 "port" (grpcapp.port a);
              slog.String_ "addr" (grpcapp.Listener_Addr l)]) in
        match grpcapp.Server_Serve (grpcapp.gRPCServer a) l w1 with
        | (Some err, w2) =>
            (Some (fmt.Errorf "grpcapp.Run" err),
             {| world := w2; trace := trace s ++ [running] |})
        | (None, w2) => (None, {| world := w2; trace := trace s ++ [running] |})
        end
    end.
Proof.
  unfold grpcapp.Run, Logger.Info, Logger.Log, bind, ret, emit, call.
  cbn [world trace].
  destruct (grpcapp.net_Listen _ _ _) as [[l [err|]] w1]; cbn; [reflexivity |].
  destruct (grpcapp.Server_Serve _ _ _) as [[err|] w2]; cbn;
    rewrite <- ?app_assoc; reflexivity.
Qed.

(** When the port cannot be listened on, [Run] returns the error of
    [net.Listen] wrapped with its name, writes no record and does not
    start the server: two applications with the same port end alike,
    whatever their servers and loggers. *)
Theorem Run_listen_failure
    (a1 a2 : grpcapp.App) (s : State) (listenErr : error) :
  grpcapp.port a1 = grpcapp.port a2 ->
  snd (fst (grpcapp.net_Listen "tcp" (":" ++ pretty (grpcapp.port a1)) (world s)))
    = Some listenErr ->
  fst (grpcapp.Run a1 s) = Some (fmt.Errorf "grpcapp.Run" listenErr) /\
  added s (snd (grpcapp.Run a1 s)) = [] /\
  grpcapp.Run a1 s = grpcapp.Run a2 s.
Proof.
  intros Hport Hlisten. rewrite !Run_run. rewrite <- Hport.
  unfold grpcapp.address.
  destruct (grpcapp.net_Listen _ _ _) as [[l [err|]] w1]; cbn in Hlisten;
    [injection Hlisten as -> | discriminate].
  repeat split. unfold added. cbn. apply drop_all.
Qed.


End GrpcFacts.

(** * The migration command *)

Section MigratorFacts.
Context `{migrator.Migrations}.

(** Without a storage path [main] panics with "storage-path is
    required", whether or not a migrations path is given; with a storage
    path and no migrations path it panics with "migrations-path is
    required".  In both cases it prints nothing and leaves the database
    as it was.  A flag given as the empty string counts as missing. *)
Theorem main_requires_both_paths (given : string -> option string) (db : migrator.DB) :
  (given "storage-path" = None \/ given "storage-path" = Some "" ->
   migrator.main given db = (panics (panic_string "storage-path is required"), [], db)) /\
  ((exists path, given "storage-path" = Some path /\ path <> "") ->
   given "migrations-path" = None \/ given "migrations-path" = Some "" ->
   migrator.main given db = (panics (panic_string "migrations-path is required"), [], db)).
Proof.
  unfold migrator.main, migrator.flag_String. split.
  - intros [-> | ->]; reflexivity.
  - intros [path [-> Hpath]] Hmig. cbn [default].
    rewrite bool_decide_eq_false_2 by exact Hpath.
    destruct Hmig as [-> | ->]; reflexivity.
Qed.

(** With both paths given, [main] opens the migrations at
    [file://<migrations-path>] against
    [sqlite3://<storage-path>?x-migrations-table=<table>], the table
    being "migrations" unless the flag names another.  It returns, and
    prints one line, exactly when [Up] has returned no error ("migrations
    applied") or an error that is [ErrNoChange] ("no migrations to
    apply"); any other error of [New] or [Up] is the value it panics
    with. *)
Theorem main_outcome
    (given : string -> option string) (db : migrator.DB)
    (storagePath migrationsPath : string) :
  given "storage-path" = Some storagePath -> storagePath <> "" ->
  given "migrations-path" = Some migrationsPath -> migrationsPath <> "" ->
  let table := default "migrations" (given "migrations-table") in
  let opened :=
    migrator.migrate_New ("file://" ++ migrationsPath)
      ("sqlite3://" ++ storagePath ++ "?x-migrations-table=" ++ table) db in
  let up := migrator.Migrate_Up (fst (fst opened)) (snd opened) in
  migrator.main given db =
    match snd (fst opened) with
    | Some err => (panics (panic_error err), [], snd opened)
    | None =>
        match fst up with
        | None => (returns tt, ["migrations applied"], snd up)
        | Some err =>
            if migrator.is_ErrNoChange err
            then (returns tt, ["no migrations to apply"], snd up)
            else (panics (panic_error err), [], snd up)
        end
    end.
Proof.
  intros Hs Hsne Hm Hmne. cbn zeta.
  unfold migrator.main, migrator.flag_String, migrator.database_url.
  rewrite Hs, Hm. cbn [default].
  rewrite !bool_decide_eq_false_2 by assumption.
  destruct (migrator.migrate_New _ _ _) as [[m [err|]] db1]; cbn [fst snd];
    [reflexivity |].
  destruct (migrator.Migrate_Up m db1) as [[err|] db2]; reflexivity.
Qed.

End MigratorFacts.

(** * The further properties at concrete inputs *)

Lemma toy_hashes_verify : @hashes_verify mem.env.
Proof.
  intros password cost db hash db'. cbn. unfold mem.toy_generate, mem.toy_compare.
  destruct (bool_decide (72 < Z.of_nat (length password))); [discriminate |].
  intros Heq. injection Heq as <- _.
  rewrite bool_decide_eq_true_2 by reflexivity. reflexivity.
Qed.

Lemma find_app_None {A} (p : A -> bool) (l k : list A) :
  find p l = None -> find p (l ++ k) = find p k.
Proof.
  induction l as [| y l IH]; cbn; [reflexivity |].
  destruct (p y); [discriminate | exact IH].
Qed.

Lemma mem_saved_is_found : @saved_is_found mem.env mem.saver mem.provider.
Proof.
  intros ctx email passHash db id db'. cbn.
  destruct (find (mem.by_email email) (mem.users db)) eqn:Hfind; [discriminate |].
  intros Heq. injection Heq as <- <-. cbn.
  rewrite (find_app_None _ _ _ Hfind). cbn. unfold mem.by_email at 1. cbn.
  rewrite bool_decide_eq_true_2 by reflexivity. reflexivity.
Qed.

(** A locked user store: [Login] returns its error wrapped after the one
    call. *)
Lemma Login_lookup_failure_passed_on_witness :
  fst (auth.Login demo.locked_service tt "a@x.com" "pw1" 42 (mem.start mem.db1))
    = ("", Some (fmt.Errorf "Auth.Login" demo.locked)) /\
  calls (added (mem.start mem.db1)
           (snd (auth.Login demo.locked_service tt "a@x.com" "pw1" 42 (mem.start mem.db1))))
    = [KUser].
Proof.
  destruct (@Login_lookup_failure_passed_on mem.env demo.locked_service tt
              "a@x.com" "pw1" 42 (mem.start mem.db1) demo.locked eq_refl eq_refl)
    as [H1 [_ H3]].
  split; [exact H1 | exact H3].
Defined.

Lemma Register_save_failure_passed_on_witness :
  fst (auth.RegisterNewUser demo.locked_service tt "c@x.com" "pw2" (mem.start mem.db1))
    = (0, Some (fmt.Errorf "auth.RegisterNewUser" demo.locked)).
Proof.
  apply (@Register_save_failure_passed_on mem.env demo.locked_service tt
           "c@x.com" "pw2" (mem.start mem.db1) _ _ demo.locked eq_refl eq_refl eq_refl).
Defined.


Lemma Login_InvalidCredentials_iff_witness :
  exists e,
    snd (fst (auth.Login mem.service tt "a@x.com" "wrong" 42 (mem.start mem.db1))) = Some e /\
    errors.Is e auth_ErrInvalidCredentials = true.
Proof.
  apply (@Login_InvalidCredentials_iff mem.env mem.service tt "a@x.com" "wrong" 42
           (mem.start mem.db1)); reflexivity.
Defined.

Lemma Register_UserExists_iff_witness :
  exists e,
    snd (fst (auth.RegisterNewUser mem.service tt "a@x.com" "pw9" (mem.start mem.db1)))
      = Some e /\
    errors.Is e auth_ErrUserExists = true.
Proof.
  apply (@Register_UserExists_iff mem.env mem.service tt "a@x.com" "pw9"
           (mem.start mem.db1)); reflexivity.
Defined.

Lemma Login_succeeds_iff_witness :
  snd (fst (auth.Login mem.service tt "a@x.com" "pw1" 42 (mem.start mem.db1))) = None.
Proof.
  apply (@Login_succeeds_iff mem.env mem.service tt "a@x.com" "pw1" 42
           (mem.start mem.db1)).
  split; reflexivity.
Defined.

(** Register ["c@x.com"], then log in for application 42. *)
Lemma register_then_login_witness :
  fst (auth.Login mem.service tt "c@x.com" "pw2" 42
         (snd (auth.RegisterNewUser mem.service tt "c@x.com" "pw2" (mem.start mem.db1))))
    = ("HS256.secret-42", None).
Proof.
  exact (@register_then_login mem.env mem.service tt "c@x.com" "pw2" 42
           (mem.start mem.db1) _ _ _ _ toy_hashes_verify mem_saved_is_found
           eq_refl eq_refl).
Defined.

(** The same user and application with other hash and secret: the token
    signed is the same, the key is not. *)
Lemma token_body_depends_on_the_claims_only_witness :
  exists t,
    added (mem.start mem.db1)
      (snd (jwt.NewToken (models.mkUser 1 "a@x.com" []) (models.mkApp 42 "one")
              3600000000000 (mem.start mem.db1)))
      = [EvNow; EvSignedString t (list_byte_of_string "one")] /\
    added (mem.start mem.db1)
      (snd (jwt.NewToken (models.mkUser 1 "a@x.com" [x24]) (models.mkApp 42 "other")
              3600000000000 (mem.start mem.db1)))
      = [EvNow; EvSignedString t (list_byte_of_string "other")].
Proof.
  apply (proj1 (@token_body_depends_on_the_claims_only mem.env)
           (models.mkUser 1 "a@x.com" []) (models.mkUser 1 "a@x.com" [x24])
           (models.mkApp 42 "one") (models.mkApp 42 "other")
           3600000000000 (mem.start mem.db1));
    reflexivity.
Defined.

Lemma MustLoad_returns_iff_witness :
  @config.MustLoad demo.host = returns demo.config_yaml.
Proof.
  apply (proj2 (proj2 (proj2 (@MustLoad_returns_iff demo.host))) demo.config_yaml).
  repeat split. discriminate.
Defined.

Lemma MustLoad_agrees_with_MustLoadPath_witness :
  @config.MustLoad demo.host = @config.MustLoadPath demo.host "./config/local.yaml" /\
  @config.MustLoad demo.unreadable
    = panics (panic_string_error "failed to read config: " (errorOther "yaml: bad indentation")) /\
  @config.MustLoadPath demo.unreadable "./config/local.yaml"
    = panics (panic_string_error "cannot read config: " (errorOther "yaml: bad indentation")).
Proof.
  split.
  - apply (proj1 (@MustLoad_agrees_with_MustLoadPath demo.host ltac:(discriminate))).
    right. reflexivity.
  - apply (proj2 (@MustLoad_agrees_with_MustLoadPath demo.unreadable ltac:(discriminate))
             (errorOther "yaml: bad indentation")); reflexivity.
Defined.

Lemma setupLogger_nil_iff_witness : cmd_sso.setupLogger "staging" = None.
Proof.
  apply (proj1 (setupLogger_nil_iff "staging")). repeat split; discriminate.
Defined.

(** The logger of "prod" and a login with a wrong password. *)
Lemma service_records_pass_the_logger_witness :
  cmd_sso.Enabled (cmd_sso.mkLogger cmd_sso.JSON slog.LevelInfo) slog.LevelInfo = true.
Proof.
  apply (proj1 (@service_records_pass_the_logger mem.env "prod" _ mem.service tt
                  (mem.start mem.db1) eq_refl)
           "a@x.com" "wrong" 42 slog.LevelInfo "invalid credentials"
           [slog.ErrText "error" (errorOther "hash and password differ")]).
  do 3 right. left. reflexivity.
Defined.

(** Port 80 cannot be listened on. *)
Lemma Run_listen_failure_witness :
  fst (grpcapp.Run (demo.app 80) (mem.start mem.db1))
    = Some (fmt.Errorf "grpcapp.Run" (errorOther "listen: address already in use")).
Proof.
  apply (@Run_listen_failure mem.env demo.net (demo.app 80) (demo.app 80)
           (mem.start mem.db1) _ eq_refl eq_refl).
Defined.

Lemma main_requires_both_paths_witness :
  @migrator.main demo.migrations (fun _ => None) 0
    = (panics (panic_string "storage-path is required"), [], 0).
Proof.
  apply (proj1 (@main_requires_both_paths demo.migrations (fun _ => None) 0)).
  left. reflexivity.
Defined.

(** A database at version 0, then one already at version 2. *)
Lemma main_outcome_witness :
  @migrator.main demo.migrations demo.args 0 = (returns tt, ["migrations applied"], 2) /\
  @migrator.main demo.migrations demo.args 2 = (returns tt, ["no migrations to apply"], 2).
Proof.
  split.
  - apply (@main_outcome demo.migrations demo.args 0 "./storage/sso.db" "./migrations");
      (reflexivity || discriminate).
  - apply (@main_outcome demo.migrations demo.args 2 "./storage/sso.db" "./migrations");
      (reflexivity || discriminate).
Defined.
